(** * react-overflow-indicator: the overflow state store, the edge watchers
      and the indicator evaluator of [src/index.tsx], embedded in Rocq.

    The development follows the source file top to bottom:
    - [JS]: the fragment of JavaScript values the file relies on
      (numbers with their truthiness, [undefined], thrown [TypeError]s,
      object identity);
    - [Direction], [CanScroll], [Dispatch], [reducer], [getInitialState];
    - [Overflow]: the provider, with [useReducer] and the [onStateChange]
      effect;
    - [OverflowContent]: the four intersection observers, their callback,
      their root margins and the tolerance element;
    - [OverflowIndicator]: the indicator helper. *)

From Stdlib Require Import ZArith Bool Ascii.
From Stdlib Require Import Floats.SpecFloat.
From stdpp Require Import gmap strings list.

(* ===================================================================== *)
(** * JavaScript values                                                    *)
(* ===================================================================== *)

Module JS.

(** A JavaScript [number] is an IEEE 754 double: a signed zero, a signed
    infinity, NaN or a finite value. *)
Abbreviation number := spec_float.

Definition zero : number := S754_zero false.
Definition of_pos (p : positive) : number := S754_finite false p 0.

(** [ToBoolean] on numbers: [+0], [-0] and [NaN] are falsy. *)
Definition truthy_number (x : number) : bool :=
  match x with
  | S754_zero _ | S754_nan => false
  | S754_infinity _ | S754_finite _ _ _ => true
  end.

(** [x !== 0] on numbers: only the two zeros are strictly equal to [0];
    [NaN] is not equal to anything. *)
Definition strict_ne_zero (x : number) : bool :=
  match x with
  | S754_zero _ => false
  | _ => true
  end.

Definition is_nan (x : number) : bool :=
  match x with S754_nan => true | _ => false end.

(** [ToBoolean] on strings: only the empty string is falsy. *)
Definition truthy_string (s : string) : bool :=
  match s with
  | EmptyString => false
  | String _ _ => true
  end.

(** [a || b]: the left operand when it is truthy, the right one
    otherwise. *)
Definition or_number (a b : number) : number :=
  if truthy_number a then a else b.

(** A value of type [boolean | undefined]; [None] is [undefined]. *)
Definition truthy_bool (v : option bool) : bool :=
  match v with
  | Some true => true
  | _ => false
  end.

Definition or_bool (a b : option bool) : option bool :=
  if truthy_bool a then a else b.

(** The outcome of running a piece of code that may throw. *)
Inductive Result (A : Type) : Type :=
| Ok (a : A)
| TypeError (msg : string).
Arguments Ok {A} a.
Arguments TypeError {A} msg.

Definition bind {A B} (r : Result A) (k : A -> Result B) : Result B :=
  match r with
  | Ok a => k a
  | TypeError msg => TypeError msg
  end.

(** [const { prop } = o], where [o] is the variable named [name]: throws
    when [o] is [undefined]. *)
Definition destructure {O A} (o : option O) (name prop : string)
    (field : O -> A) : Result A :=
  match o with
  | Some obj => Ok (field obj)
  | None =>
      TypeError
        (String.append "Cannot destructure property '"
           (String.append prop
              (String.append "' of '"
                 (String.append name "' as it is undefined."))))
  end.

(** ** Object identity

    The objects whose identity matters here (the reducer's states) are
    never written to after they are built, so a reference is the address
    of the object together with the record stored there.  An object
    literal takes the next free address; [Object.is] compares addresses.
    A counter numbers the objects of one kind only: the objects inside
    them (the [canScroll] object of a state, whose identity nothing in the
    file compares) take no address, so a counter tells objects apart and
    does not count allocations. *)
Record Obj (A : Type) : Type := mkObj { addr : nat; val : A }.
Arguments mkObj {A} addr val.
Arguments addr {A} o.
Arguments val {A} o.

(** Computations that may evaluate object literals: they thread the next
    free address. *)
Definition Alloc (A : Type) : Type := nat -> A * nat.

Definition ret {A} (a : A) : Alloc A := fun next => (a, next).

Definition new {A} (fields : A) : Alloc (Obj A) :=
  fun next => (mkObj next fields, S next).

Definition Object_is {A} (x y : Obj A) : bool :=
  Nat.eqb (addr x) (addr y).

End JS.

#[global] Instance Result_bind : MBind JS.Result :=
  fun A B k r => JS.bind r k.
#[global] Instance Result_ret : MRet JS.Result := fun A a => JS.Ok a.

(* ===================================================================== *)
(** * Directions, the canScroll object and the reducer                     *)
(* ===================================================================== *)

Module Direction.

(** [enum Direction { up = 'up', left = 'left', right = 'right',
    down = 'down' }] *)
Inductive t : Set := up | left | right | down.

#[global] Instance eq_dec : EqDecision t.
Proof. solve_decision. Defined.

(** The string value of a member, which is also its property key. *)
Definition key (d : t) : string :=
  match d with
  | up => "up"
  | left => "left"
  | right => "right"
  | down => "down"
  end.

End Direction.

(** [interface CanScroll]: a JavaScript object with a boolean under each
    direction key.  Objects are built with spread and computed keys, so
    the embedding is a finite map from property names to booleans; reading
    a property that is not there gives [undefined] ([None]). *)
Abbreviation CanScroll := (gmap string bool).

(** The state held by [useReducer]: [{ canScroll: CanScroll }]. *)
Record OverflowState : Type := { canScroll : CanScroll }.

(** [interface Dispatch]: what is passed to [dispatch]. *)
Record Dispatch : Type := {
  action_type : string;
  action_direction : Direction.t;
  action_canScroll : bool
}.

Abbreviation StateRef := (JS.Obj OverflowState).

(** [function reducer(state, action)].  The state literal of the last
    branch takes an address; the [canScroll] literal inside it is a second
    object and takes none. *)
Definition reducer (state : StateRef) (action : Dispatch)
  : JS.Alloc StateRef :=
  if decide (action_type action = "CHANGE") then
    let currentValue :=
      canScroll (JS.val state) !! Direction.key (action_direction action) in
    if decide (currentValue = Some (action_canScroll action)) then
      JS.ret state
    else
      JS.new {| canScroll :=
                  <[Direction.key (action_direction action)
                    := action_canScroll action]> (canScroll (JS.val state)) |}
  else JS.ret state.

(** [function getInitialState()] *)
Definition getInitialState : JS.Alloc StateRef :=
  JS.new {| canScroll :=
              <["down" := false]>
                (<["right" := false]>
                   (<["left" := false]> (<["up" := false]> ∅))) |}.

(** Dispatching a list of actions in order, starting from [state]. *)
Fixpoint reduce_all (state : StateRef) (actions : list Dispatch)
  : JS.Alloc StateRef :=
  match actions with
  | [] => JS.ret state
  | a :: rest =>
      fun next =>
        let '(state', next') := reducer state a next in
        reduce_all state' rest next'
  end.

(** The action a watcher sends. *)
Definition CHANGE (direction : Direction.t) (canScroll : bool) : Dispatch :=
  {| action_type := "CHANGE";
     action_direction := direction;
     action_canScroll := canScroll |}.

(** The object [{ up: a, left: b, right: c, down: d }]. *)
Definition canScroll_of (a b c d : bool) : CanScroll :=
  <["down" := d]> (<["right" := c]> (<["left" := b]> (<["up" := a]> ∅))).

(* ===================================================================== *)
(** * The shared context                                                   *)
(* ===================================================================== *)

(** [tolerance: number | string] *)
Inductive Tolerance : Type :=
| tol_number (x : JS.number)
| tol_string (s : string).

(** [ToBoolean] on a [number | string | undefined]. *)
Definition truthy_tolerance (tolerance : option Tolerance) : bool :=
  match tolerance with
  | None => false
  | Some (tol_number x) => JS.truthy_number x
  | Some (tol_string s) => JS.truthy_string s
  end.

(** [{ viewport: viewportRef }]; the ref object is known by its address. *)
Record Refs : Type := { viewport : nat }.

Abbreviation RefsRef := (JS.Obj Refs).

(** The [dispatch] function [useReducer] hands out. *)
Inductive DispatchFn : Type := provider_dispatch.

(** [interface OverflowContext].  Every property may be missing from the
    object that is actually there, so each field is an option. *)
Record OverflowContext : Type := {
  ctx_tolerance : option Tolerance;
  ctx_refs : option RefsRef;
  ctx_canScroll : option CanScroll;
  ctx_state : option StateRef;
  ctx_dispatch : option DispatchFn
}.

(** [const Context = React.createContext<OverflowContext>({})]: the value
    a consumer reads when no provider encloses it is the empty object. *)
Definition Context : OverflowContext :=
  {| ctx_tolerance := None;
     ctx_refs := None;
     ctx_canScroll := None;
     ctx_state := None;
     ctx_dispatch := None |}.

(** [useOverflow()], that is [useContext(Context)]: the value of the
    nearest provider, or the default value when there is none. *)
Definition useOverflow (provider : option OverflowContext) : OverflowContext :=
  match provider with
  | Some value => value
  | None => Context
  end.

(* ===================================================================== *)
(** * The provider, [Overflow]                                             *)
(* ===================================================================== *)

Module Overflow.

(** A callback passed as [onStateChange], known by its identity. *)
Definition Callback : Type := nat.

(** The props the component reads. *)
Record Props : Type := {
  onStateChange : option Callback;
  tolerance : option Tolerance
}.

(** One invocation [onStateChange(state, refs)]. *)
Record Call : Type := {
  call_callback : Callback;
  call_state : StateRef;
  call_refs : RefsRef
}.

(** The dependency array [[onStateChange, refs, state]]. *)
Definition Deps : Type := (option Callback * RefsRef * StateRef)%type.

(** What React keeps for a mounted [Overflow]: the reducer hook's state,
    the memoised [refs] object, the dependencies of the last committed
    [onStateChange] effect, and, as a record of what happened, the
    invocations of the callback in order. *)
Record Instance : Type := {
  state : StateRef;
  refs : RefsRef;
  effect_deps : option Deps;
  calls : list Call;
  next : nat
}.

(** React compares dependencies one by one with [Object.is]. *)
Definition same_callback (a b : option Callback) : bool :=
  match a, b with
  | Some x, Some y => Nat.eqb x y
  | None, None => true
  | _, _ => false
  end.

Definition same_deps (a b : Deps) : bool :=
  let '(cb1, refs1, state1) := a in
  let '(cb2, refs2, state2) := b in
  same_callback cb1 cb2 && JS.Object_is refs1 refs2
    && JS.Object_is state1 state2.

(** [useEffect(() => { if (onStateChange) onStateChange(state, refs) },
    [onStateChange, refs, state])]: the effect runs after the first
    commit and after every commit in which a dependency changed. *)
Definition effect_body (props : Props) (inst : Instance) : list Call :=
  match onStateChange props with
  | Some cb =>
      [{| call_callback := cb;
          call_state := state inst;
          call_refs := refs inst |}]
  | None => []
  end.

Definition commit (props : Props) (inst : Instance) : Instance :=
  let deps := (onStateChange props, refs inst, state inst) in
  let run :=
    match effect_deps inst with
    | None => true
    | Some old => negb (same_deps old deps)
    end in
  if run then
    {| state := state inst;
       refs := refs inst;
       effect_deps := Some deps;
       calls := calls inst ++ effect_body props inst;
       next := next inst |}
  else inst.

(** The first render: [useReducer(reducer, null, getInitialState)],
    [useRef(null)], [useMemo(() => ({ viewport: viewportRef }), [])],
    then the commit. *)
Definition mount (props : Props) (next0 : nat) : Instance :=
  let '(state0, next1) := getInitialState next0 in
  let viewportRef := next1 in
  let '(refs0, next2) := JS.new {| viewport := viewportRef |} (S next1) in
  commit props
    {| state := state0;
       refs := refs0;
       effect_deps := None;
       calls := [];
       next := next2 |}.

(** The queued actions are applied when the component renders next: the
    reducer runs on each of them in order, from the current state, and the
    render is committed.  React may put several [dispatch] calls of one
    tick in the same render. *)
Definition flush (props : Props) (batch : list Dispatch) (inst : Instance)
  : Instance :=
  let '(state', next') := reduce_all (state inst) batch (next inst) in
  commit props
    {| state := state';
       refs := refs inst;
       effect_deps := effect_deps inst;
       calls := calls inst;
       next := next' |}.

(** [dispatch(action)], rendered on its own. *)
Definition dispatch (props : Props) (action : Dispatch) (inst : Instance)
  : Instance :=
  flush props [action] inst.

(** The renders of a list of batches, one after the other. *)
Definition run (props : Props) (inst : Instance)
    (batches : list (list Dispatch)) : Instance :=
  fold_left (fun i batch => flush props batch i) batches inst.

(** The state of an instance between two events: the last commit saw the
    current dependencies, and the state object lies below the next free
    address. *)
Definition settled (props : Props) (inst : Instance) : Prop :=
  effect_deps inst = Some (onStateChange props, refs inst, state inst)
  /\ JS.addr (state inst) < next inst.

(** A render with other props (the parent rendered again). *)
Definition rerender (props : Props) (inst : Instance) : Instance :=
  commit props inst.

(** The destructuring default [tolerance = 0]. *)
Definition tolerance_or_default (props : Props) : Tolerance :=
  match tolerance props with
  | Some t => t
  | None => tol_number JS.zero
  end.

(** The value given to [Context.Provider]. *)
Definition context (props : Props) (inst : Instance) : OverflowContext :=
  {| ctx_tolerance := Some (tolerance_or_default props);
     ctx_refs := Some (refs inst);
     ctx_canScroll := None;
     ctx_state := Some (state inst);
     ctx_dispatch := Some provider_dispatch |}.

End Overflow.

(* ===================================================================== *)
(** * Root margins                                                         *)
(* ===================================================================== *)

(** The [rootMargin] option of an intersection observer is a string of
    one to four lengths, each in pixels or in percent, read like the CSS
    [margin] shorthand: top, right, bottom, left.  A positive component
    moves its edge of the root's box outwards, a negative one inwards; a
    percentage is taken of the root's height (top, bottom) or width (left,
    right). *)
Module RootMargin.

Inductive Length : Type :=
| px (n : Z)
| percent (n : Z).

#[global] Instance Length_eq_dec : EqDecision Length.
Proof. solve_decision. Defined.

Record t : Type := { top : Length; right : Length;
                     bottom : Length; left : Length }.

Definition digit (c : ascii) : option Z :=
  let n := Z.of_N (N_of_ascii c) in
  if ((48 <=? n) && (n <=? 57))%Z then Some (n - 48)%Z else None.

(** The digits at the head of [s], most significant first, with what
    follows them. *)
Fixpoint digits (s : string) (acc : Z) (seen : bool)
  : option (Z * string) :=
  match s with
  | String c rest =>
      match digit c with
      | Some d => digits rest (10 * acc + d)%Z true
      | None => if seen then Some (acc, s) else None
      end
  | EmptyString => if seen then Some (acc, s) else None
  end.

Definition signed (s : string) : option (Z * string) :=
  match s with
  | String "-" rest =>
      match digits rest 0 false with
      | Some (n, unit) => Some ((- n)%Z, unit)
      | None => None
      end
  | String "+" rest => digits rest 0 false
  | _ => digits s 0 false
  end.

Definition parse_length (token : string) : option Length :=
  match signed token with
  | Some (n, "px") => Some (px n)
  | Some (n, "%") => Some (percent n)
  | _ => None
  end.

(** The pieces of [s] between spaces (some may be empty). *)
Fixpoint split (s : string) : list string :=
  match s with
  | EmptyString => [EmptyString]
  | String c rest =>
      if Ascii.eqb c " " then EmptyString :: split rest
      else match split rest with
           | piece :: pieces => String c piece :: pieces
           | [] => [String c EmptyString]
           end
  end.

Definition tokens (s : string) : list string :=
  filter (fun piece => piece <> EmptyString) (split s).

Definition parse (s : string) : option t :=
  match mapM parse_length (tokens s) with
  | Some [a] => Some {| top := a; right := a; bottom := a; left := a |}
  | Some [a; b] => Some {| top := a; right := b; bottom := a; left := b |}
  | Some [a; b; c] =>
      Some {| top := a; right := b; bottom := c; left := b |}
  | Some [a; b; c; d] =>
      Some {| top := a; right := b; bottom := c; left := d |}
  | _ => None
  end.

(** A box in viewport coordinates: [y] grows downwards. *)
Record Rect : Type := { rect_top : Z; rect_right : Z;
                        rect_bottom : Z; rect_left : Z }.

Definition rect_height (r : Rect) : Z := (rect_bottom r - rect_top r)%Z.
Definition rect_width (r : Rect) : Z := (rect_right r - rect_left r)%Z.

Definition resolve (l : Length) (extent : Z) : Z :=
  match l with
  | px n => n
  | percent n => (n * extent / 100)%Z
  end.

(** The region a target is tested against: the root's box with each
    edge moved by its margin. *)
Definition expand (m : t) (root : Rect) : Rect :=
  {| rect_top := (rect_top root - resolve (top m) (rect_height root))%Z;
     rect_right :=
       (rect_right root + resolve (right m) (rect_width root))%Z;
     rect_bottom :=
       (rect_bottom root + resolve (bottom m) (rect_height root))%Z;
     rect_left :=
       (rect_left root - resolve (left m) (rect_width root))%Z |}.

(** The component of a margin on the side a direction points to, and
    the one on the other side. *)
Definition toward (d : Direction.t) (m : t) : Length :=
  match d with
  | Direction.up => top m
  | Direction.left => left m
  | Direction.right => right m
  | Direction.down => bottom m
  end.

Definition opposite (d : Direction.t) : Direction.t :=
  match d with
  | Direction.up => Direction.down
  | Direction.left => Direction.right
  | Direction.right => Direction.left
  | Direction.down => Direction.up
  end.

(** The two components on the sides a direction runs along. *)
Definition across (d : Direction.t) (m : t) : Length * Length :=
  match d with
  | Direction.up | Direction.down => (left m, right m)
  | Direction.left | Direction.right => (top m, bottom m)
  end.

Definition is_zero (l : Length) : bool :=
  match l with
  | px n | percent n => Z.eqb n 0
  end.

End RootMargin.

(* ===================================================================== *)
(** * The content wrapper, [OverflowContent]                               *)
(* ===================================================================== *)

Module OverflowContent.

(** What the observer callback reads from an
    [IntersectionObserverEntry]. *)
Record DOMRectReadOnly : Type := {
  width : JS.number;
  height : JS.number
}.

Record IntersectionObserverEntry : Type := {
  boundingClientRect : DOMRectReadOnly;
  intersectionRatio : JS.number;
  isIntersecting : bool
}.

(** [Boolean(entry.boundingClientRect.width ||
    entry.boundingClientRect.height)] *)
Definition hasSize (entry : IntersectionObserverEntry) : bool :=
  JS.truthy_number
    (JS.or_number (width (boundingClientRect entry))
                  (height (boundingClientRect entry))).

(** [hasSize && entry.intersectionRatio !== 0 && entry.isIntersecting] *)
Definition entry_canScroll (entry : IntersectionObserverEntry) : bool :=
  hasSize entry
    && JS.strict_ne_zero (intersectionRatio entry)
    && isIntersecting entry.

(** The callback given to [new IntersectionObserver] by
    [createObserver(direction, rootMargin)], run on [[entry]].  It closes
    over [ignore] and [dispatch]; the result is the action it passes to
    [dispatch], if it does. *)
Definition observer_callback (ignore : bool) (dispatch : option DispatchFn)
    (direction : Direction.t) (entry : IntersectionObserverEntry)
  : option Dispatch :=
  if ignore then None
  else
    let canScroll := entry_canScroll entry in
    match dispatch with
    | Some _ =>
        Some {| action_type := "CHANGE";
                action_direction := direction;
                action_canScroll := canScroll |}
    | None => None
    end.

(** The margins [createObserver] is called with. *)
Definition rootMargin (direction : Direction.t) : string :=
  match direction with
  | Direction.up => "100% 0px -100% 0px"
  | Direction.left => "0px -100% 0px 100%"
  | Direction.right => "0px 100% 0px -100%"
  | Direction.down => "-100% 0px 100% 0px"
  end.

(** ** The tolerance element and the watched node *)

Inductive RefName : Type := contentRef | toleranceRef.

(** [const watchRef = tolerance ? toleranceRef : contentRef] *)
Definition watchRef (tolerance : option Tolerance) : RefName :=
  if truthy_tolerance tolerance then toleranceRef else contentRef.

(** The [style] of the [data-overflow-tolerance] element. *)
Record ToleranceStyle : Type := {
  style_position : string;
  style_top : Tolerance;
  style_left : Tolerance;
  style_right : Tolerance;
  style_bottom : Tolerance;
  style_background : string;
  style_pointerEvents : string;
  style_zIndex : Z
}.

(** [toleranceElement]: the element or [null]. *)
Definition toleranceElement (tolerance : option Tolerance)
  : option ToleranceStyle :=
  match tolerance with
  | Some t =>
      if truthy_tolerance tolerance then
        Some {| style_position := "absolute";
                style_top := t;
                style_left := t;
                style_right := t;
                style_bottom := t;
                style_background := "transparent";
                style_pointerEvents := "none";
                style_zIndex := (-1)%Z |}
      else None
  | None => None
  end.

(** The DOM nodes the component renders that a ref can point to. *)
Inductive Node : Type :=
| content_node
| tolerance_node (style : ToleranceStyle).

(** [ref.current] once the render is committed: the content [div] is
    always there, the tolerance [div] only when [toleranceElement] is
    not [null]. *)
Definition current (tolerance : option Tolerance) (ref : RefName)
  : option Node :=
  match ref with
  | contentRef => Some content_node
  | toleranceRef => tolerance_node <$> toleranceElement tolerance
  end.

(** [const watchNode = watchRef.current] *)
Definition watchNode (tolerance : option Tolerance) : option Node :=
  current tolerance (watchRef tolerance).

(** ** The observers *)

(** An observer as the component sees it: the options it was created
    with, the nodes it observes, and whether [disconnect()] was called
    on it. *)
Record IntersectionObserver : Type := {
  io_direction : Direction.t;
  io_rootMargin : string;
  io_targets : list Node;
  io_disconnected : bool
}.

Definition createObserver (direction : Direction.t) (margin : string)
  : IntersectionObserver :=
  {| io_direction := direction;
     io_rootMargin := margin;
     io_targets := [];
     io_disconnected := false |}.

Definition observe (node : Node) (o : IntersectionObserver)
  : IntersectionObserver :=
  {| io_direction := io_direction o;
     io_rootMargin := io_rootMargin o;
     io_targets := node :: io_targets o;
     io_disconnected := io_disconnected o |}.

Definition disconnect (o : IntersectionObserver) : IntersectionObserver :=
  {| io_direction := io_direction o;
     io_rootMargin := io_rootMargin o;
     io_targets := [];
     io_disconnected := true |}.

(** The object [observers] of the first effect, with the effect's
    [ignore] variable. *)
Record Watchers : Type := {
  ignore : bool;
  dispatch : option DispatchFn;
  observers_up : IntersectionObserver;
  observers_left : IntersectionObserver;
  observers_right : IntersectionObserver;
  observers_down : IntersectionObserver
}.

Definition observer (w : Watchers) (d : Direction.t)
  : IntersectionObserver :=
  match d with
  | Direction.up => observers_up w
  | Direction.left => observers_left w
  | Direction.right => observers_right w
  | Direction.down => observers_down w
  end.

(** The body of the first effect. *)
Definition setup (ctx : OverflowContext) : Watchers :=
  {| ignore := false;
     dispatch := ctx_dispatch ctx;
     observers_up :=
       createObserver Direction.up (rootMargin Direction.up);
     observers_left :=
       createObserver Direction.left (rootMargin Direction.left);
     observers_right :=
       createObserver Direction.right (rootMargin Direction.right);
     observers_down :=
       createObserver Direction.down (rootMargin Direction.down) |}.

(** The body of the second effect: observe [watchNode] if there is
    one. *)
Definition observe_all (node : option Node) (w : Watchers) : Watchers :=
  match node with
  | Some n =>
      {| ignore := ignore w;
         dispatch := dispatch w;
         observers_up := observe n (observers_up w);
         observers_left := observe n (observers_left w);
         observers_right := observe n (observers_right w);
         observers_down := observe n (observers_down w) |}
  | None => w
  end.

(** The cleanup returned by the first effect. *)
Definition cleanup (w : Watchers) : Watchers :=
  {| ignore := true;
     dispatch := dispatch w;
     observers_up := disconnect (observers_up w);
     observers_left := disconnect (observers_left w);
     observers_right := disconnect (observers_right w);
     observers_down := disconnect (observers_down w) |}.

(** The observer of [direction] reports [entry]: its callback runs. *)
Definition report (w : Watchers) (direction : Direction.t)
    (entry : IntersectionObserverEntry) : option Dispatch :=
  observer_callback (ignore w) (dispatch w) direction entry.

End OverflowContent.

(* ===================================================================== *)
(** * A provider with its content wrapper                                  *)
(* ===================================================================== *)

(** The provider instance and the watchers of the content wrapper inside
    it, driven by what the platform does: an observer reports an entry, or
    the content wrapper's first effect is cleaned up. *)
Module Tree.

Record t : Type := {
  provider : Overflow.Instance;
  watchers : OverflowContent.Watchers
}.

Inductive Event : Type :=
| Report (direction : Direction.t)
         (entry : OverflowContent.IntersectionObserverEntry)
| Teardown.

Definition mount (props : Overflow.Props) (next0 : nat) : t :=
  let inst := Overflow.mount props next0 in
  let ctx := useOverflow (Some (Overflow.context props inst)) in
  {| provider := inst;
     watchers :=
       OverflowContent.observe_all
         (OverflowContent.watchNode (ctx_tolerance ctx))
         (OverflowContent.setup ctx) |}.

Definition step (props : Overflow.Props) (tree : t) (ev : Event) : t :=
  match ev with
  | Report direction entry =>
      match OverflowContent.report (watchers tree) direction entry with
      | Some action =>
          {| provider := Overflow.dispatch props action (provider tree);
             watchers := watchers tree |}
      | None => tree
      end
  | Teardown =>
      {| provider := provider tree;
         watchers := OverflowContent.cleanup (watchers tree) |}
  end.

Definition run (props : Overflow.Props) (tree : t) (evs : list Event) : t :=
  fold_left (step props) evs tree.

End Tree.

(* ===================================================================== *)
(** * The indicator helper, [OverflowIndicator]                            *)
(* ===================================================================== *)

Section Indicator.

(** What a React element is does not matter here. *)
Variable Element : Type.

(** The first argument of a render function: a boolean when a direction
    was given, the whole [canScroll] object otherwise. *)
Inductive StateArg : Type :=
| arg_boolean (b : option bool)
| arg_canScroll (c : CanScroll).

(** [children]: an element, or a function of the state and the refs. *)
Inductive Children : Type :=
| child_element (el : Element)
| child_function (f : StateArg -> option RefsRef -> Element).

(** [direction ? canScroll[direction]
     : canScroll.up || canScroll.left || canScroll.right
       || canScroll.down].
    A direction that is given is one of four non-empty strings, so it is
    truthy. *)
Definition isActive (canScroll : CanScroll) (direction : option Direction.t)
  : option bool :=
  match direction with
  | Some d => canScroll !! Direction.key d
  | None =>
      JS.or_bool
        (JS.or_bool
           (JS.or_bool (canScroll !! "up") (canScroll !! "left"))
           (canScroll !! "right"))
        (canScroll !! "down")
  end.

(** [const { state, refs } = useOverflow(); const { canScroll } = state;]
    Destructuring [undefined] throws. *)
Definition read_canScroll (ctx : OverflowContext) : JS.Result CanScroll :=
  JS.destructure (ctx_state ctx) "state" "canScroll"
    (fun state => canScroll (JS.val state)).

(** The value of [isActive] in a render of the indicator. *)
Definition active (provider : option OverflowContext)
    (direction : option Direction.t) : JS.Result (option bool) :=
  canScroll ← read_canScroll (useOverflow provider);
  mret (isActive canScroll direction).

(** [function OverflowIndicator({ children, direction })]: what is
    rendered, [None] for [null]. *)
Definition OverflowIndicator (provider : option OverflowContext)
    (children : Children) (direction : option Direction.t)
  : JS.Result (option Element) :=
  let ctx := useOverflow provider in
  let refs := ctx_refs ctx in
  canScroll ← read_canScroll ctx;
  let isActive := isActive canScroll direction in
  match children with
  | child_function f =>
      let stateArg :=
        match direction with
        | Some _ => arg_boolean isActive
        | None => arg_canScroll canScroll
        end in
      mret (Some (f stateArg refs))
  | child_element el =>
      mret (if JS.truthy_bool isActive then Some el else None)
  end.

End Indicator.

Arguments child_element {Element} el.
Arguments child_function {Element} f.
Arguments OverflowIndicator {Element} provider children direction.

(* ===================================================================== *)
(** * Reference statements                                                 *)
(* ===================================================================== *)

(** Properties as the design document words them, to be compared with the
    definitions above. *)
Module Spec.

(** The four property names a [CanScroll] object is to have. *)
Definition four_keys : gset string := {[ "up"; "left"; "right"; "down" ]}.

(** "Non-zero", for a number. *)
Definition nonzero (x : JS.number) : Prop :=
  x <> S754_zero false /\ x <> S754_zero true.

(** "The target's bounding box has non-zero width or height." *)
Definition has_nonzero_size
    (entry : OverflowContent.IntersectionObserverEntry) : Prop :=
  nonzero (OverflowContent.width (OverflowContent.boundingClientRect entry))
  \/ nonzero
       (OverflowContent.height (OverflowContent.boundingClientRect entry)).

(** A margin that leaves the edge on the side of [d] where it is and moves
    the opposite edge by the whole extent of the viewport. *)
Definition collapses_to_edge (d : Direction.t) (m : RootMargin.t) : Prop :=
  RootMargin.is_zero (RootMargin.toward d m) = true
  /\ (RootMargin.toward (RootMargin.opposite d) m = RootMargin.percent 100
      \/ RootMargin.toward (RootMargin.opposite d) m
         = RootMargin.percent (-100)).

(** The box of the viewport moved by its own height or width toward
    [d]. *)
Definition shifted (d : Direction.t) (root : RootMargin.Rect)
  : RootMargin.Rect :=
  let h := RootMargin.rect_height root in
  let w := RootMargin.rect_width root in
  match d with
  | Direction.up =>
      {| RootMargin.rect_top := RootMargin.rect_top root - h;
         RootMargin.rect_right := RootMargin.rect_right root;
         RootMargin.rect_bottom := RootMargin.rect_bottom root - h;
         RootMargin.rect_left := RootMargin.rect_left root |}
  | Direction.down =>
      {| RootMargin.rect_top := RootMargin.rect_top root + h;
         RootMargin.rect_right := RootMargin.rect_right root;
         RootMargin.rect_bottom := RootMargin.rect_bottom root + h;
         RootMargin.rect_left := RootMargin.rect_left root |}
  | Direction.left =>
      {| RootMargin.rect_top := RootMargin.rect_top root;
         RootMargin.rect_right := RootMargin.rect_right root - w;
         RootMargin.rect_bottom := RootMargin.rect_bottom root;
         RootMargin.rect_left := RootMargin.rect_left root - w |}
  | Direction.right =>
      {| RootMargin.rect_top := RootMargin.rect_top root;
         RootMargin.rect_right := RootMargin.rect_right root + w;
         RootMargin.rect_bottom := RootMargin.rect_bottom root;
         RootMargin.rect_left := RootMargin.rect_left root + w |}
  end%Z.

(** A tolerance that "is zero": the number zero, or a length string whose
    number is zero, such as ["0px"]. *)
Definition tolerance_is_zero (t : Tolerance) : bool :=
  match t with
  | tol_number (S754_zero _) => true
  | tol_number _ => false
  | tol_string s =>
      match RootMargin.signed s with
      | Some (n, _) => Z.eqb n 0
      | None => false
      end
  end.

Definition zero_or_absent (tolerance : option Tolerance) : bool :=
  match tolerance with
  | None => true
  | Some t => tolerance_is_zero t
  end.

(** The style of a proxy inset by [t] on all four sides. *)
Definition inset_style (t : Tolerance) : OverflowContent.ToleranceStyle :=
  {| OverflowContent.style_position := "absolute";
     OverflowContent.style_top := t;
     OverflowContent.style_left := t;
     OverflowContent.style_right := t;
     OverflowContent.style_bottom := t;
     OverflowContent.style_background := "transparent";
     OverflowContent.style_pointerEvents := "none";
     OverflowContent.style_zIndex := (-1)%Z |}.

(** The values [ToBoolean] sends to [false]. *)
Definition falsy (tolerance : option Tolerance) : Prop :=
  tolerance = None
  \/ (exists s, tolerance = Some (tol_number (S754_zero s)))
  \/ tolerance = Some (tol_number S754_nan)
  \/ tolerance = Some (tol_string "").

End Spec.

(* ===================================================================== *)
(** * Inline styles                                                        *)
(* ===================================================================== *)

Module Style.

(** A value of a [CSSProperties] object: a string or a number. *)
Inductive Value : Type :=
| str (s : string)
| num (n : Z).

#[global] Instance Value_eq_dec : EqDecision Value.
Proof. solve_decision. Defined.

#[global] Instance Value_inhabited : Inhabited Value := populate (str "").

(** [{ ...a, ...b }]: a property of [b] wins over the same one of [a]. *)
Definition spread (a b : gmap string Value) : gmap string Value := b ∪ a.

(** Spreading [undefined] adds nothing. *)
Definition spreadable (o : option (gmap string Value)) : gmap string Value :=
  match o with
  | Some props => props
  | None => ∅
  end.

(** [const containerStyle] *)
Definition containerStyle : gmap string Value :=
  <["position" := str "relative"]>
    (<["flexDirection" := str "column"]> (<["display" := str "flex"]> ∅)).

(** [const viewportStyle] *)
Definition viewportStyle : gmap string Value :=
  <["overflow" := str "auto"]>
    (<["flexGrow" := num 0]>
       (<["flexShrink" := num 1]>
          (<["flexBasis" := str "100%"]>
             (<["position" := str "relative"]> ∅)))).

(** [const contentStyle] *)
Definition contentStyle : gmap string Value :=
  <["boxSizing" := str "border-box"]>
    (<["minWidth" := str "100%"]>
       (<["position" := str "relative"]>
          (<["display" := str "inline-block"]> ∅))).

(** The [style] of the wrapper [div] of [Overflow]:
    [{ ...containerStyle, ...styleProp,
       display: hidden || (styleProp && styleProp.display === 'none')
                ? 'none' : containerStyle.display }]. *)
Definition Overflow_style (hidden : option bool)
    (styleProp : option (gmap string Value)) : gmap string Value :=
  let hide :=
    JS.truthy_bool hidden
    || match styleProp with
       | Some props => bool_decide (props !! "display" = Some (str "none"))
       | None => false
       end in
  <["display" := if hide then str "none" else containerStyle !!! "display"]>
    (spread containerStyle (spreadable styleProp)).

(** The [style] of the content [div] of [OverflowContent]:
    [{ ...styleProp, ...contentStyle }]. *)
Definition OverflowContent_style (styleProp : option (gmap string Value))
  : gmap string Value :=
  spread (spreadable styleProp) contentStyle.

End Style.

(* ===================================================================== *)
(** * The memoised context value                                           *)
(* ===================================================================== *)

(** [Object.is] on two numbers: the same value.  NaN is NaN, the two zeros
    differ, and a finite double is the same however its mantissa and
    exponent are written ([10 * 2^0] and [5 * 2^1]). *)
Definition same_number (x y : JS.number) : bool :=
  match x, y with
  | S754_zero s1, S754_zero s2 => Bool.eqb s1 s2
  | S754_infinity s1, S754_infinity s2 => Bool.eqb s1 s2
  | S754_nan, S754_nan => true
  | S754_finite s1 m1 e1, S754_finite s2 m2 e2 =>
      Bool.eqb s1 s2
      && (Z.pos m1 * 2 ^ (e1 - Z.min e1 e2)
          =? Z.pos m2 * 2 ^ (e2 - Z.min e1 e2))%Z
  | _, _ => false
  end.

(** [Object.is] on two tolerances: two numbers of the same value, or two
    strings with the same characters. *)
Definition same_tolerance (a b : Tolerance) : bool :=
  match a, b with
  | tol_number x, tol_number y => same_number x y
  | tol_string s, tol_string t => bool_decide (s = t)
  | _, _ => false
  end.

Module ContextMemo.

(** The dependency array [[refs, state, tolerance]]. *)
Definition Deps : Type := (RefsRef * StateRef * Tolerance)%type.

(** What [useMemo] keeps: the dependencies it last computed with and the
    object it then built. *)
Record Cell : Type := {
  cell_deps : Deps;
  cell_value : JS.Obj OverflowContext
}.

(** [Object.is] on the three dependencies. *)
Definition same_deps (a b : Deps) : bool :=
  let '(refs1, state1, tolerance1) := a in
  let '(refs2, state2, tolerance2) := b in
  JS.Object_is refs1 refs2 && JS.Object_is state1 state2
    && same_tolerance tolerance1 tolerance2.

(** [useMemo(() => value, deps)]: the object of the last render when no
    dependency changed, a new object otherwise. *)
Definition useMemo (prev : option Cell) (deps : Deps)
    (value : OverflowContext) : JS.Alloc Cell :=
  fun next =>
    let fresh :=
      ({| cell_deps := deps; cell_value := JS.mkObj next value |}, S next) in
    match prev with
    | Some cell => if same_deps (cell_deps cell) deps then (cell, next)
                   else fresh
    | None => fresh
    end.

(** [const context = useMemo(() => ({ state, dispatch, tolerance, refs }),
    [refs, state, tolerance])] in a render of [Overflow]. *)
Definition render (props : Overflow.Props) (inst : Overflow.Instance)
    (prev : option Cell) : JS.Alloc Cell :=
  useMemo prev
    (Overflow.refs inst, Overflow.state inst,
     Overflow.tolerance_or_default props)
    (Overflow.context props inst).

End ContextMemo.

(* ===================================================================== *)
(** * The content wrapper: reading the context, the second effect          *)
(* ===================================================================== *)

Module ContentEffects.

#[global] Instance RefName_eq_dec : EqDecision OverflowContent.RefName.
Proof. solve_decision. Defined.

(** [const { dispatch, tolerance, refs } = useOverflow();
     const { viewport: viewportRef } = refs;] *)
Definition viewportRef (provider : option OverflowContext) : JS.Result nat :=
  JS.destructure (ctx_refs (useOverflow provider)) "refs" "viewport"
    (fun refs => viewport (JS.val refs)).

(** The first render of [OverflowContent] and its two effects: the
    observers are created, then [watchNode] is observed. *)
Definition mount (provider : option OverflowContext)
  : JS.Result OverflowContent.Watchers :=
  _ ← viewportRef provider;
  let ctx := useOverflow provider in
  mret (OverflowContent.observe_all
          (OverflowContent.watchNode (ctx_tolerance ctx))
          (OverflowContent.setup ctx)).

(** ** The second effect over the renders of a mounted content wrapper *)

(** A DOM element, by identity.  The content [div] is one element for the
    life of the component.  The tolerance [div] is rendered only while the
    tolerance is truthy: through consecutive renders with a truthy
    tolerance it is one element, whose style React updates in place, and
    it is another element when it is rendered again after a render
    without it. *)
Inductive Element : Type :=
| content_div
| tolerance_div (id : nat).

#[global] Instance Element_eq_dec : EqDecision Element.
Proof. solve_decision. Defined.

(** [observer.observe(node)]: a node already observed is not added
    again. *)
Definition observe (node : Element) (targets : list Element)
  : list Element :=
  if decide (node ∈ targets) then targets else node :: targets.

(** [observer.unobserve(node)] *)
Definition unobserve (node : Element) (targets : list Element)
  : list Element :=
  filter (fun n => n <> node) targets.

(** The nodes observed by each of the four observers. *)
Record Targets : Type := {
  targets_up : list Element;
  targets_left : list Element;
  targets_right : list Element;
  targets_down : list Element
}.


(** What a mounted content wrapper holds between two renders: the
    tolerance [div] [toleranceRef.current] points to, if it is rendered;
    the element identities not used yet; the [watchRef] the second effect
    last ran with, the [watchNode] its cleanup closes over, and the
    targets of the observers. *)
Record Rendered : Type := {
  tolerance_div_id : option nat;
  next_id : nat;
  effect_watchRef : OverflowContent.RefName;
  effect_watchNode : option Element;
  observed : Targets
}.

(** [ref.current] after a commit. *)
Definition current (div : option nat) (ref : OverflowContent.RefName)
  : option Element :=
  match ref with
  | OverflowContent.contentRef => Some content_div
  | OverflowContent.toleranceRef => tolerance_div <$> div
  end.

(** The body of the second effect:
    [if (watchNode) { observers?.up.observe(watchNode); ... }]. *)
Definition effect_run (watchNode : option Element) (t : Targets) : Targets :=
  match watchNode with
  | Some n =>
      {| targets_up := observe n (targets_up t);
         targets_left := observe n (targets_left t);
         targets_right := observe n (targets_right t);
         targets_down := observe n (targets_down t) |}
  | None => t
  end.

(** Its cleanup:
    [if (watchNode) { observers?.up.unobserve(watchNode); ... }]. *)
Definition effect_cleanup (watchNode : option Element) (t : Targets)
  : Targets :=
  match watchNode with
  | Some n =>
      {| targets_up := unobserve n (targets_up t);
         targets_left := unobserve n (targets_left t);
         targets_right := unobserve n (targets_right t);
         targets_down := unobserve n (targets_down t) |}
  | None => t
  end.

(** The first render with [tolerance], committed, and the second effect
    run. *)
Definition first_render (tolerance : option Tolerance) : Rendered :=
  let div := if truthy_tolerance tolerance then Some 0 else None in
  let watchRef := OverflowContent.watchRef tolerance in
  let watchNode := current div watchRef in
  {| tolerance_div_id := div;
     next_id := if truthy_tolerance tolerance then 1 else 0;
     effect_watchRef := watchRef;
     effect_watchNode := watchNode;
     observed :=
       effect_run watchNode
         {| targets_up := []; targets_left := [];
            targets_right := []; targets_down := [] |} |}.

(** A later render with [tolerance].  The tolerance [div] is kept, made or
    removed; the second effect, whose dependencies are [[watchRef]], is
    cleaned up and run again only when [watchRef] is the other ref. *)
Definition rerender (tolerance : option Tolerance) (r : Rendered)
  : Rendered :=
  let '(div, next) :=
    if truthy_tolerance tolerance then
      match tolerance_div_id r with
      | Some id => (Some id, next_id r)
      | None => (Some (next_id r), S (next_id r))
      end
    else (None, next_id r) in
  let watchRef := OverflowContent.watchRef tolerance in
  if bool_decide (watchRef = effect_watchRef r) then
    {| tolerance_div_id := div;
       next_id := next;
       effect_watchRef := effect_watchRef r;
       effect_watchNode := effect_watchNode r;
       observed := observed r |}
  else
    let watchNode := current div watchRef in
    {| tolerance_div_id := div;
       next_id := next;
       effect_watchRef := watchRef;
       effect_watchNode := watchNode;
       observed :=
         effect_run watchNode
           (effect_cleanup (effect_watchNode r) (observed r)) |}.


End ContentEffects.

(* ===================================================================== *)
(** * Boxes                                                                *)
(* ===================================================================== *)

Module Geometry.

(** Two boxes have a common part of positive area. *)
Definition overlaps (a b : RootMargin.Rect) : bool :=
  (Z.max (RootMargin.rect_left a) (RootMargin.rect_left b)
   <? Z.min (RootMargin.rect_right a) (RootMargin.rect_right b))%Z
  && (Z.max (RootMargin.rect_top a) (RootMargin.rect_top b)
      <? Z.min (RootMargin.rect_bottom a) (RootMargin.rect_bottom b))%Z.

(** [outer] covers [inner]. *)
Definition covers (outer inner : RootMargin.Rect) : Prop :=
  (RootMargin.rect_top outer <= RootMargin.rect_top inner
   /\ RootMargin.rect_bottom inner <= RootMargin.rect_bottom outer
   /\ RootMargin.rect_left outer <= RootMargin.rect_left inner
   /\ RootMargin.rect_right inner <= RootMargin.rect_right outer)%Z.

(** How far [content] reaches beyond the edge of [root] on the side of
    [d]. *)
Definition beyond (d : Direction.t) (content root : RootMargin.Rect) : Z :=
  match d with
  | Direction.up => RootMargin.rect_top root - RootMargin.rect_top content
  | Direction.left => RootMargin.rect_left root - RootMargin.rect_left content
  | Direction.right =>
      RootMargin.rect_right content - RootMargin.rect_right root
  | Direction.down =>
      RootMargin.rect_bottom content - RootMargin.rect_bottom root
  end%Z.

(** The region the observer of [d] tests against, for a viewport [root]. *)
Definition region (d : Direction.t) (root : RootMargin.Rect)
  : option RootMargin.Rect :=
  m ← RootMargin.parse (OverflowContent.rootMargin d);
  Some (RootMargin.expand m root).

End Geometry.

(** What holds of the recorded calls of a provider whose callback is [cb]:
    the last call was made with the current state; every call was made
    with [cb], the provider's [refs] and a state allocated before; no two
    calls were made with the same state object. *)
Definition calls_consistent (cb : Overflow.Callback)
    (inst : Overflow.Instance) : Prop :=
  last (Overflow.calls inst)
  = Some {| Overflow.call_callback := cb;
            Overflow.call_state := Overflow.state inst;
            Overflow.call_refs := Overflow.refs inst |}
  /\ Forall (fun c => Overflow.call_callback c = cb
                      /\ Overflow.call_refs c = Overflow.refs inst
                      /\ JS.addr (Overflow.call_state c) < Overflow.next inst)
       (Overflow.calls inst)
  /\ NoDup ((fun c => JS.addr (Overflow.call_state c))
              <$> Overflow.calls inst).

(** The value a list of changes leaves under [d]: that of the last change
    of [d], if there is one. *)
Fixpoint last_write (d : Direction.t) (changes : list (Direction.t * bool))
  : option bool :=
  match changes with
  | [] => None
  | (d', v) :: rest =>
      match last_write d rest with
      | Some w => Some w
      | None => if decide (d' = d) then Some v else None
      end
  end.

(* ===================================================================== *)
(** * The reducer                                                          *)
(* ===================================================================== *)

Lemma key_inj d1 d2 : Direction.key d1 = Direction.key d2 -> d1 = d2.
Proof.
  destruct d1, d2; simpl; intros H; first [reflexivity | discriminate H].
Qed.

Lemma key_in_four d : Direction.key d ∈ Spec.four_keys.
Proof. unfold Spec.four_keys. destruct d; simpl; set_solver. Qed.

Example getInitialState_up :
  canScroll (JS.val (fst (getInitialState 0))) !! "up" = Some false.
Proof. reflexivity. Qed.

Example reducer_change_down :
  canScroll (JS.val (fst (reducer (fst (getInitialState 0))
                            (CHANGE Direction.down true) 1))) !! "down"
  = Some true.
Proof. vm_compute. reflexivity. Qed.

(** An action of another type is ignored. *)
Lemma reducer_other_type state action next :
  action_type action <> "CHANGE" ->
  reducer state action next = (state, next).
Proof.
  intros Hty. unfold reducer.
  destruct (decide (action_type action = "CHANGE")); [contradiction | done].
Qed.

(** The two outcomes of the reducer: the state it was given, with nothing
    allocated, or a new object at the next free address. *)
Lemma reducer_cases state action next :
  reducer state action next = (state, next)
  \/ exists cs, reducer state action next
                = (JS.mkObj next {| canScroll := cs |}, S next)
                /\ canScroll (JS.val state)
                     !! Direction.key (action_direction action)
                   <> Some (action_canScroll action).
Proof.
  unfold reducer.
  destruct (decide (action_type action = "CHANGE")); [| by left].
  match goal with |- context [decide ?P] => destruct (decide P) end.
  - by left.
  - right. eexists. split; [reflexivity | assumption].
Qed.

(** A change of value gives an object at a new address. *)
Lemma reducer_changed state d v next :
  canScroll (JS.val state) !! Direction.key d <> Some v ->
  reducer state (CHANGE d v) next
  = (JS.mkObj next
       {| canScroll := <[Direction.key d := v]> (canScroll (JS.val state)) |},
     S next).
Proof.
  intros Hne. unfold reducer, CHANGE. simpl.
  destruct (decide _) as [Heq | _]; [contradiction | reflexivity].
Qed.

(** The same value again: the state is returned as it is. *)
Lemma reducer_unchanged state d v next :
  canScroll (JS.val state) !! Direction.key d = Some v ->
  reducer state (CHANGE d v) next = (state, next).
Proof.
  intros Hcur. unfold reducer, CHANGE. simpl.
  destruct (decide _) as [_ | Hne]; [reflexivity | contradiction].
Qed.

Lemma Object_is_refl {A} (x : JS.Obj A) : JS.Object_is x x = true.
Proof. unfold JS.Object_is. apply Nat.eqb_refl. Qed.

Lemma Object_is_sym {A} (x y : JS.Obj A) :
  JS.Object_is x y = JS.Object_is y x.
Proof. unfold JS.Object_is. apply Nat.eqb_sym. Qed.

(** C2. For every state [s] and every CHANGE action whose value is the one
    [s] already stores for the action's direction, the reducer returns [s]
    itself: the same reference (same address, same contents), and no
    object is allocated. *)
Theorem reducer_same_value_same_reference
    (state : StateRef) (action : Dispatch) (next : nat) :
  action_type action = "CHANGE" ->
  canScroll (JS.val state) !! Direction.key (action_direction action)
    = Some (action_canScroll action) ->
  reducer state action next = (state, next)
  /\ JS.Object_is (fst (reducer state action next)) state = true.
Proof.
  intros Hty Hcur. destruct action as [ty d v]. simpl in *. subst ty.
  change {| action_type := "CHANGE"; action_direction := d;
            action_canScroll := v |} with (CHANGE d v).
  rewrite (reducer_unchanged _ _ _ _ Hcur). simpl.
  split; [reflexivity | apply Object_is_refl].
Qed.

Lemma reducer_same_value_same_reference_witness :
  let state := fst (getInitialState 0) in
  let action := CHANGE Direction.up false in
  reducer state action 1 = (state, 1)
  /\ JS.Object_is (fst (reducer state action 1)) state = true.
Proof.
  apply (reducer_same_value_same_reference
           (fst (getInitialState 0)) (CHANGE Direction.up false) 1);
    reflexivity.
Defined.

(** C3. For every state [s], direction [D] and boolean [v], the state the
    reducer gives for a CHANGE of [D] to [v] stores, under each of the
    three other directions, what [s] stores there. *)
Theorem reducer_other_directions_kept
    (state : StateRef) (D other : Direction.t) (v : bool) (next : nat) :
  other <> D ->
  canScroll (JS.val (fst (reducer state (CHANGE D v) next)))
    !! Direction.key other
  = canScroll (JS.val state) !! Direction.key other.
Proof.
  intros Hne.
  destruct (decide (canScroll (JS.val state) !! Direction.key D = Some v))
    as [Hcur | Hcur].
  - by rewrite (reducer_unchanged _ _ _ _ Hcur).
  - rewrite (reducer_changed _ _ _ _ Hcur). simpl.
    apply lookup_insert_ne. intros Hk. apply key_inj in Hk. congruence.
Qed.

Lemma reducer_other_directions_kept_witness :
  canScroll (JS.val (fst (reducer (fst (getInitialState 0))
                            (CHANGE Direction.down true) 1)))
    !! Direction.key Direction.left
  = canScroll (JS.val (fst (getInitialState 0)))
      !! Direction.key Direction.left.
Proof.
  apply (reducer_other_directions_kept (fst (getInitialState 0))
           Direction.down Direction.left true 1).
  discriminate.
Defined.

(** Every action keeps the four property names. *)
Lemma reducer_keeps_keys state action next :
  dom (canScroll (JS.val state)) = Spec.four_keys ->
  dom (canScroll (JS.val (fst (reducer state action next))))
  = Spec.four_keys.
Proof.
  intros Hdom. unfold reducer.
  destruct (decide (action_type action = "CHANGE")); [| exact Hdom].
  match goal with |- context [decide ?P] => destruct (decide P) end;
    [exact Hdom |].
  simpl. rewrite dom_insert_L, Hdom.
  apply subseteq_union_1_L, singleton_subseteq_l, key_in_four.
Qed.

Lemma reduce_all_keeps_keys actions : forall state next,
  dom (canScroll (JS.val state)) = Spec.four_keys ->
  dom (canScroll (JS.val (fst (reduce_all state actions next))))
  = Spec.four_keys.
Proof.
  induction actions as [| a rest IH]; intros state next Hdom; simpl.
  - exact Hdom.
  - pose proof (reducer_keeps_keys state a next Hdom) as Hstep.
    destruct (reducer state a next) as [state' next']. simpl in Hstep.
    by apply IH.
Qed.

Lemma getInitialState_keys next :
  dom (canScroll (JS.val (fst (getInitialState next)))) = Spec.four_keys.
Proof.
  unfold getInitialState, Spec.four_keys. simpl.
  rewrite !dom_insert_L, dom_empty_L. set_solver.
Qed.

(** C9. From the initial state, in which the four directions are false,
    after any finite sequence of actions put through the reducer (CHANGE
    actions in particular) the canScroll object has exactly the properties
    up, left, right and down, and each of them holds a boolean. *)
Theorem canScroll_always_four_booleans
    (actions : list Dispatch) (next : nat) :
  let initial := getInitialState next in
  let final := fst (reduce_all (fst initial) actions (snd initial)) in
  (forall d, canScroll (JS.val (fst initial)) !! Direction.key d
             = Some false)
  /\ dom (canScroll (JS.val final)) = Spec.four_keys
  /\ forall d, exists b : bool,
       canScroll (JS.val final) !! Direction.key d = Some b.
Proof.
  intros initial final.
  assert (Hdom : dom (canScroll (JS.val final)) = Spec.four_keys).
  { apply reduce_all_keeps_keys, getInitialState_keys. }
  split; [| split].
  - intros d. destruct d; reflexivity.
  - exact Hdom.
  - intros d. pose proof (key_in_four d) as Hin.
    rewrite <- Hdom in Hin. apply elem_of_dom in Hin.
    destruct Hin as [b Hb]. by exists b.
Qed.

(* ===================================================================== *)
(** * The provider                                                         *)
(* ===================================================================== *)

Lemma same_callback_refl cb : Overflow.same_callback cb cb = true.
Proof. destruct cb; simpl; [apply Nat.eqb_refl | reflexivity]. Qed.

Lemma same_deps_refl deps : Overflow.same_deps deps deps = true.
Proof.
  destruct deps as [[cb r] s]. simpl.
  by rewrite same_callback_refl, !Object_is_refl.
Qed.

(** Nothing happens in a commit whose dependencies were already seen. *)
Lemma commit_settled props inst :
  Overflow.settled props inst -> Overflow.commit props inst = inst.
Proof.
  intros [Hdeps _]. unfold Overflow.commit. rewrite Hdeps.
  by rewrite same_deps_refl.
Qed.

Lemma mount_settled props next0 :
  Overflow.settled props (Overflow.mount props next0).
Proof. split; simpl; [reflexivity | lia]. Qed.

(** A list of actions gives back the state it started from, with nothing
    allocated, or an object allocated on the way. *)
Lemma reduce_all_cases actions : forall state next,
  reduce_all state actions next = (state, next)
  \/ (next <= JS.addr (fst (reduce_all state actions next))
      /\ JS.addr (fst (reduce_all state actions next))
         < snd (reduce_all state actions next)).
Proof.
  induction actions as [| a rest IH]; intros state next; simpl;
    [by left |].
  destruct (reducer_cases state a next) as [-> | [cs [-> _]]].
  - apply IH.
  - right.
    destruct (IH (JS.mkObj next {| canScroll := cs |}) (S next))
      as [-> | [Hle Hlt]]; simpl in *; lia.
Qed.

(** What a render of queued actions does to a settled instance. *)
Lemma flush_settled_cases props batch inst :
  Overflow.settled props inst ->
  let result :=
    reduce_all (Overflow.state inst) batch (Overflow.next inst) in
  (fst result = Overflow.state inst
   /\ Overflow.flush props batch inst = inst)
  \/ (JS.Object_is (fst result) (Overflow.state inst) = false
      /\ JS.addr (fst result) < snd result
      /\ Overflow.flush props batch inst
         = {| Overflow.state := fst result;
              Overflow.refs := Overflow.refs inst;
              Overflow.effect_deps :=
                Some (Overflow.onStateChange props, Overflow.refs inst,
                      fst result);
              Overflow.calls :=
                Overflow.calls inst
                  ++ Overflow.effect_body props
                       {| Overflow.state := fst result;
                          Overflow.refs := Overflow.refs inst;
                          Overflow.effect_deps := Overflow.effect_deps inst;
                          Overflow.calls := Overflow.calls inst;
                          Overflow.next := snd result |};
              Overflow.next := snd result |}).
Proof.
  intros Hs result. pose proof Hs as [Hdeps Hlt].
  unfold Overflow.flush. subst result.
  destruct (reduce_all_cases batch (Overflow.state inst) (Overflow.next inst))
    as [-> | [Hle Hlt']].
  - left. split; [reflexivity |].
    destruct inst as [st rf ed cl nx]. simpl. by apply commit_settled.
  - right.
    destruct (reduce_all (Overflow.state inst) batch (Overflow.next inst))
      as [state' next'] eqn:Hresult. simpl in *.
    assert (Hfresh : JS.Object_is state' (Overflow.state inst) = false).
    { unfold JS.Object_is. apply Nat.eqb_neq. lia. }
    split; [exact Hfresh |]. split; [exact Hlt' |].
    unfold Overflow.commit. simpl. rewrite Hdeps. simpl.
    rewrite same_callback_refl, Object_is_refl, Object_is_sym, Hfresh.
    reflexivity.
Qed.

Lemma flush_settled props batch inst :
  Overflow.settled props inst ->
  Overflow.settled props (Overflow.flush props batch inst).
Proof.
  intros Hs.
  destruct (flush_settled_cases props batch inst Hs)
    as [[_ ->] | [_ [Hlt ->]]]; [exact Hs |].
  split; simpl; [reflexivity | exact Hlt].
Qed.

Lemma run_settled props batches : forall inst,
  Overflow.settled props inst ->
  Overflow.settled props (Overflow.run props inst batches).
Proof.
  induction batches as [| b rest IH]; intros inst Hs; simpl; [exact Hs |].
  apply IH. by apply flush_settled.
Qed.

(** The [refs] object is the same for the whole life of the provider. *)
Lemma run_refs props batches : forall inst,
  Overflow.settled props inst ->
  Overflow.refs (Overflow.run props inst batches) = Overflow.refs inst.
Proof.
  induction batches as [| b rest IH]; intros inst Hs; simpl; [reflexivity |].
  rewrite IH by (by apply flush_settled).
  destruct (flush_settled_cases props b inst Hs) as [[_ ->] | [_ [_ ->]]];
    reflexivity.
Qed.

Lemma reduce_all_single state action next :
  reduce_all state [action] next = reducer state action next.
Proof. simpl. by destruct (reducer state action next). Qed.



(* ===================================================================== *)
(** * The watchers                                                         *)
(* ===================================================================== *)

(** Once [ignore] is set, a report changes nothing. *)
Lemma step_report_ignored props tree d entry :
  OverflowContent.ignore (Tree.watchers tree) = true ->
  Tree.step props tree (Tree.Report d entry) = tree.
Proof.
  intros Hig. simpl. unfold OverflowContent.report,
    OverflowContent.observer_callback. by rewrite Hig.
Qed.

Lemma run_reports_ignored props reports : forall tree,
  OverflowContent.ignore (Tree.watchers tree) = true ->
  Tree.run props tree (uncurry Tree.Report <$> reports) = tree.
Proof.
  induction reports as [| [d entry] rest IH]; intros tree Hig;
    [reflexivity |].
  rewrite fmap_cons.
  change (Tree.run props tree (uncurry Tree.Report (d, entry) :: ?evs))
    with (Tree.run props (Tree.step props tree (Tree.Report d entry)) evs).
  rewrite step_report_ignored by exact Hig. by apply IH.
Qed.

(** A provider with a callback, mounted; the observer of [down] reports an
    entry that intersects: [down] becomes true and the callback has been
    called twice, at mount and for the new state.  The same report again
    changes nothing. *)
Example tree_report_down :
  let props :=
    {| Overflow.onStateChange := Some 7; Overflow.tolerance := None |} in
  let entry :=
    {| OverflowContent.boundingClientRect :=
         {| OverflowContent.width := JS.of_pos 300;
            OverflowContent.height := JS.of_pos 900 |};
       OverflowContent.intersectionRatio := JS.of_pos 1;
       OverflowContent.isIntersecting := true |} in
  let once :=
    Tree.run props (Tree.mount props 0) [Tree.Report Direction.down entry] in
  let twice := Tree.step props once (Tree.Report Direction.down entry) in
  canScroll (JS.val (Overflow.state (Tree.provider once))) !! "down"
  = Some true
  /\ canScroll (JS.val (Overflow.state (Tree.provider once))) !! "up"
     = Some false
  /\ length (Overflow.calls (Tree.provider once)) = 2
  /\ twice = once.
Proof. vm_compute. repeat split. Qed.

(** C5. Once the cleanup of the watcher effect has run, whatever the tree
    was before: every observer callback that still fires passes nothing to
    [dispatch]; after any number of such late reports the provider is what
    it was (same state object, same list of [onStateChange] calls); and
    each of the four observers has been disconnected. *)
Theorem late_reports_after_teardown_dropped
    (props : Overflow.Props) (tree : Tree.t)
    (late : list (Direction.t * OverflowContent.IntersectionObserverEntry)) :
  let torn := Tree.step props tree Tree.Teardown in
  let after := Tree.run props torn (uncurry Tree.Report <$> late) in
  (forall d entry,
      OverflowContent.report (Tree.watchers torn) d entry = None)
  /\ Tree.provider after = Tree.provider tree
  /\ Overflow.state (Tree.provider after)
     = Overflow.state (Tree.provider tree)
  /\ Overflow.calls (Tree.provider after)
     = Overflow.calls (Tree.provider tree)
  /\ forall d,
       OverflowContent.io_disconnected
         (OverflowContent.observer (Tree.watchers torn) d) = true
       /\ OverflowContent.io_targets
            (OverflowContent.observer (Tree.watchers torn) d) = [].
Proof.
  intros torn after.
  assert (Hafter : after = torn).
  { subst after. by apply run_reports_ignored. }
  rewrite Hafter. repeat split; try reflexivity.
  all: destruct d; reflexivity.
Qed.

Lemma truthy_number_nonzero x :
  JS.is_nan x = false -> JS.truthy_number x = true <-> Spec.nonzero x.
Proof.
  unfold Spec.nonzero. destruct x as [s | s | | s m e]; simpl; intros Hnan.
  - split; [discriminate |]. intros [H1 H2]. destruct s; congruence.
  - split; [split; discriminate | reflexivity].
  - discriminate Hnan.
  - split; [split; discriminate | reflexivity].
Qed.

Lemma strict_ne_zero_nonzero x :
  JS.strict_ne_zero x = true <-> Spec.nonzero x.
Proof.
  unfold Spec.nonzero. destruct x as [s | s | | s m e]; simpl.
  - split; [discriminate |]. intros [H1 H2]. destruct s; congruence.
  - split; [split; discriminate | reflexivity].
  - split; [split; discriminate | reflexivity].
  - split; [split; discriminate | reflexivity].
Qed.

Lemma hasSize_orb entry :
  OverflowContent.hasSize entry
  = JS.truthy_number
      (OverflowContent.width (OverflowContent.boundingClientRect entry))
    || JS.truthy_number
         (OverflowContent.height (OverflowContent.boundingClientRect entry)).
Proof.
  unfold OverflowContent.hasSize, JS.or_number.
  destruct (JS.truthy_number
              (OverflowContent.width
                 (OverflowContent.boundingClientRect entry))) eqn:Hw;
    [exact Hw | reflexivity].
Qed.

(** C7. For every report whose measured width and height are numbers (not
    NaN), the callback of the observer of a direction dispatches a CHANGE
    for that direction whose boolean is true exactly when the bounding box
    has a non-zero width or a non-zero height, the intersection ratio is
    not 0, and [isIntersecting] is true; otherwise the boolean is
    false. *)
Theorem dispatched_canScroll_iff
    (f : DispatchFn) (d : Direction.t)
    (entry : OverflowContent.IntersectionObserverEntry) :
  JS.is_nan (OverflowContent.width
               (OverflowContent.boundingClientRect entry)) = false ->
  JS.is_nan (OverflowContent.height
               (OverflowContent.boundingClientRect entry)) = false ->
  exists b : bool,
    OverflowContent.observer_callback false (Some f) d entry
    = Some (CHANGE d b)
    /\ (b = true <->
        Spec.has_nonzero_size entry
        /\ Spec.nonzero (OverflowContent.intersectionRatio entry)
        /\ OverflowContent.isIntersecting entry = true).
Proof.
  intros Hw Hh. exists (OverflowContent.entry_canScroll entry).
  split; [reflexivity |].
  unfold OverflowContent.entry_canScroll, Spec.has_nonzero_size.
  rewrite hasSize_orb, !andb_true_iff, orb_true_iff.
  rewrite (truthy_number_nonzero _ Hw), (truthy_number_nonzero _ Hh).
  rewrite strict_ne_zero_nonzero. tauto.
Qed.

Lemma dispatched_canScroll_iff_witness :
  let entry :=
    {| OverflowContent.boundingClientRect :=
         {| OverflowContent.width := JS.of_pos 300;
            OverflowContent.height := JS.zero |};
       OverflowContent.intersectionRatio := JS.of_pos 1;
       OverflowContent.isIntersecting := true |} in
  exists b : bool,
    OverflowContent.observer_callback false (Some provider_dispatch)
      Direction.down entry
    = Some (CHANGE Direction.down b)
    /\ (b = true <->
        Spec.has_nonzero_size entry
        /\ Spec.nonzero (OverflowContent.intersectionRatio entry)
        /\ OverflowContent.isIntersecting entry = true).
Proof.
  intros entry.
  apply (dispatched_canScroll_iff provider_dispatch Direction.down entry);
    reflexivity.
Defined.

(* ===================================================================== *)
(** * The root margins                                                     *)
(* ===================================================================== *)

Lemma resolve_percent_100 extent :
  RootMargin.resolve (RootMargin.percent 100) extent = extent.
Proof.
  unfold RootMargin.resolve. rewrite Z.mul_comm. by apply Z.div_mul.
Qed.

Lemma resolve_percent_minus_100 extent :
  RootMargin.resolve (RootMargin.percent (-100)) extent = (- extent)%Z.
Proof.
  unfold RootMargin.resolve.
  replace (-100 * extent)%Z with (- extent * 100)%Z by lia.
  by apply Z.div_mul.
Qed.

Lemma resolve_px_0 extent :
  RootMargin.resolve (RootMargin.px 0) extent = 0%Z.
Proof. reflexivity. Qed.

Example rootMargin_up_parsed :
  RootMargin.parse (OverflowContent.rootMargin Direction.up)
  = Some {| RootMargin.top := RootMargin.percent 100;
            RootMargin.right := RootMargin.px 0;
            RootMargin.bottom := RootMargin.percent (-100);
            RootMargin.left := RootMargin.px 0 |}.
Proof. reflexivity. Qed.

(** For the observer of [up] the top component of the margin is 100%, not
    zero: the margin does not leave the top edge where it is. *)
Lemma rootMargin_up_top_not_zero :
  RootMargin.toward Direction.up
    <$> RootMargin.parse (OverflowContent.rootMargin Direction.up)
  = Some (RootMargin.percent 100)
  /\ ~ (exists m,
          RootMargin.parse (OverflowContent.rootMargin Direction.up) = Some m
          /\ Spec.collapses_to_edge Direction.up m).
Proof.
  split; [reflexivity |].
  intros [m [Hm [Hzero _]]]. rewrite rootMargin_up_parsed in Hm.
  injection Hm as <-. discriminate Hzero.
Qed.

(** C4, as the code has it. For each direction [D] the margin string of
    the observer of [D] parses; its component on the side of [D] is +100%,
    the one on the opposite side is -100%, and the two others are [0px].
    Applied to the box of the viewport it gives that box moved by its own
    height (up, down) or width (left, right) toward [D]: the edge on the
    side of [D] moves outwards by the whole extent and the opposite edge
    comes to where the edge of [D] was. *)
Theorem rootMargin_shifts_region_toward (D : Direction.t) :
  exists m,
    RootMargin.parse (OverflowContent.rootMargin D) = Some m
    /\ RootMargin.toward D m = RootMargin.percent 100
    /\ RootMargin.toward (RootMargin.opposite D) m
       = RootMargin.percent (-100)
    /\ RootMargin.across D m = (RootMargin.px 0, RootMargin.px 0)
    /\ forall root, RootMargin.expand m root = Spec.shifted D root.
Proof.
  destruct D; eexists; (split; [reflexivity |]);
    repeat (split; [reflexivity |]);
    intros root; unfold RootMargin.expand, Spec.shifted; simpl RootMargin.top;
    simpl RootMargin.bottom; simpl RootMargin.left; simpl RootMargin.right;
    rewrite ?resolve_percent_100, ?resolve_percent_minus_100, ?resolve_px_0;
    f_equal; lia.
Qed.

(* ===================================================================== *)
(** * The tolerance element                                                *)
(* ===================================================================== *)

Lemma truthy_tolerance_false tolerance :
  truthy_tolerance tolerance = false <-> Spec.falsy tolerance.
Proof.
  unfold Spec.falsy. split.
  - destruct tolerance as [[x | s] |]; simpl; intros H.
    + destruct x as [sg | sg | | sg m e]; try discriminate H.
      * right. left. by exists sg.
      * right. right. by left.
    + destruct s; [| discriminate H]. by repeat right.
    + by left.
  - intros [-> | [[sg ->] | [-> | ->]]]; reflexivity.
Qed.

(** The string ["0px"] is a length of zero, and yet a proxy inset by
    ["0px"] is created and watched in place of the content node. *)
Lemma tolerance_0px_creates_proxy :
  let tolerance := Some (tol_string "0px") in
  Spec.zero_or_absent tolerance = true
  /\ OverflowContent.toleranceElement tolerance
     = Some (Spec.inset_style (tol_string "0px"))
  /\ OverflowContent.watchNode tolerance
     = Some (OverflowContent.tolerance_node
               (Spec.inset_style (tol_string "0px")))
  /\ OverflowContent.watchNode tolerance
     <> Some OverflowContent.content_node.
Proof. repeat split. discriminate. Qed.

(** C8, as the code has it. The tolerance is tested as a JavaScript
    condition.  When it is falsy (absent, the number 0 or NaN, or the empty
    string) no tolerance element is rendered and the watched node is the
    content node.  Otherwise (every other number, every non-empty string,
    also one that writes a zero length) the tolerance element is rendered:
    absolutely positioned, transparent, without pointer events, with the
    tolerance as its top, left, right and bottom; and it is the watched
    node. *)
Theorem watched_node_by_tolerance (tolerance : option Tolerance) :
  if truthy_tolerance tolerance then
    exists t,
      tolerance = Some t
      /\ ~ Spec.falsy tolerance
      /\ OverflowContent.toleranceElement tolerance
         = Some (Spec.inset_style t)
      /\ OverflowContent.watchRef tolerance = OverflowContent.toleranceRef
      /\ OverflowContent.watchNode tolerance
         = Some (OverflowContent.tolerance_node (Spec.inset_style t))
  else
    Spec.falsy tolerance
    /\ OverflowContent.toleranceElement tolerance = None
    /\ OverflowContent.watchRef tolerance = OverflowContent.contentRef
    /\ OverflowContent.watchNode tolerance
       = Some OverflowContent.content_node.
Proof.
  destruct (truthy_tolerance tolerance) eqn:Htruthy.
  - destruct tolerance as [t |]; [| discriminate Htruthy].
    exists t. split; [reflexivity |]. split.
    + intros Hfalsy. apply truthy_tolerance_false in Hfalsy. congruence.
    + unfold OverflowContent.watchNode, OverflowContent.watchRef,
        OverflowContent.current, OverflowContent.toleranceElement.
      rewrite Htruthy. by repeat split.
  - split; [by apply truthy_tolerance_false |].
    unfold OverflowContent.watchNode, OverflowContent.watchRef,
      OverflowContent.current, OverflowContent.toleranceElement.
    rewrite Htruthy. destruct tolerance; by repeat split.
Qed.

(* ===================================================================== *)
(** * The indicator                                                        *)
(* ===================================================================== *)

(** With no provider around it the indicator reports nothing for
    [direction="up"]: rendering it throws. *)
Lemma indicator_without_provider_fails :
  active None (Some Direction.up) <> JS.Ok (Some false)
  /\ ~ (exists out : option string,
          OverflowIndicator None (child_element "indicator"%string)
            (Some Direction.up)
          = JS.Ok out).
Proof.
  split; [discriminate |]. intros [out H]. discriminate H.
Qed.

(** C1, as the code has it. The value read with no provider around is the
    empty object: it has no state (and no refs, dispatch or tolerance).
    For every direction and with no direction, whatever the children,
    rendering the indicator there throws a TypeError when [canScroll] is
    read from the missing state, and no active value is produced.  Under a
    provider that has just mounted, active is false for every direction
    and with no direction. *)
Theorem indicator_without_provider_throws
    (Element : Type) (children : Children Element)
    (direction : option Direction.t) :
  ctx_state (useOverflow None) = None
  /\ ctx_dispatch (useOverflow None) = None
  /\ ctx_refs (useOverflow None) = None
  /\ ctx_tolerance (useOverflow None) = None
  /\ (exists msg,
        OverflowIndicator None children direction = JS.TypeError msg
        /\ active None direction = JS.TypeError msg)
  /\ forall props next0,
       active (Some (Overflow.context props (Overflow.mount props next0)))
         direction
       = JS.Ok (Some false).
Proof.
  do 4 (split; [reflexivity |]). split.
  - eexists. split; reflexivity.
  - intros props next0. destruct direction as [[] |]; reflexivity.
Qed.

Lemma isActive_direction canScroll d :
  isActive canScroll (Some d) = canScroll !! Direction.key d.
Proof. reflexivity. Qed.

Lemma isActive_any u l r d :
  isActive (canScroll_of u l r d) None = Some (u || l || r || d).
Proof. destruct u, l, r, d; reflexivity. Qed.

(** C10. For a context whose state holds the canScroll object [c]: with a
    direction, active is [c[direction]]; with no direction, for the object
    [{up, left, right, down}] of four booleans, active is the disjunction
    of the four. *)
Theorem active_is_entry_or_disjunction
    (tol : option Tolerance) (refs : option RefsRef)
    (dispatch : option DispatchFn) (address : nat) :
  let ctx c :=
    Some {| ctx_tolerance := tol;
            ctx_refs := refs;
            ctx_canScroll := None;
            ctx_state := Some (JS.mkObj address {| canScroll := c |});
            ctx_dispatch := dispatch |} in
  (forall (c : CanScroll) (direction : Direction.t),
      active (ctx c) (Some direction)
      = JS.Ok (c !! Direction.key direction))
  /\ (forall (u l r d : bool) (direction : Direction.t),
        active (ctx (canScroll_of u l r d)) (Some direction)
        = JS.Ok (Some match direction with
                      | Direction.up => u
                      | Direction.left => l
                      | Direction.right => r
                      | Direction.down => d
                      end))
  /\ (forall u l r d : bool,
        active (ctx (canScroll_of u l r d)) None
        = JS.Ok (Some (u || l || r || d))).
Proof.
  intros ctx. split; [| split].
  - reflexivity.
  - intros u l r d direction. destruct direction; reflexivity.
  - intros u l r d.
    change (active (ctx (canScroll_of u l r d)) None)
      with (JS.Ok (isActive (canScroll_of u l r d) None)).
    by rewrite isActive_any.
Qed.

(* ===================================================================== *)
(** * More on the reducer                                                  *)
(* ===================================================================== *)

(** Whichever branch is taken, the contents after a CHANGE are those of
    the state with the direction set to the value. *)
Lemma reducer_contents state d v next :
  canScroll (JS.val (fst (reducer state (CHANGE d v) next)))
  = <[Direction.key d := v]> (canScroll (JS.val state)).
Proof.
  destruct (decide (canScroll (JS.val state) !! Direction.key d = Some v))
    as [Hcur | Hcur].
  - rewrite (reducer_unchanged _ _ _ _ Hcur). simpl.
    symmetry. by apply insert_id.
  - by rewrite (reducer_changed _ _ _ _ Hcur).
Qed.

Lemma reducer_lookup state d v next d0 :
  canScroll (JS.val (fst (reducer state (CHANGE d v) next)))
    !! Direction.key d0
  = if decide (d0 = d) then Some v
    else canScroll (JS.val state) !! Direction.key d0.
Proof.
  rewrite reducer_contents. destruct (decide (d0 = d)) as [-> | Hne].
  - apply lookup_insert_eq.
  - apply lookup_insert_ne. intros Hk. apply key_inj in Hk. congruence.
Qed.

Lemma reduce_all_app xs : forall ys state next,
  reduce_all state (xs ++ ys) next
  = let '(state', next') := reduce_all state xs next in
    reduce_all state' ys next'.
Proof.
  induction xs as [| a rest IH]; intros ys state next; simpl; [reflexivity |].
  destruct (reducer state a next) as [state' next']. apply IH.
Qed.

Lemma Object_is_fresh {A} (x : JS.Obj A) (fields : A) next :
  JS.addr x < next -> JS.Object_is (JS.mkObj next fields) x = false.
Proof. intros Hlt. unfold JS.Object_is. simpl. apply Nat.eqb_neq. lia. Qed.

(** X1. After a CHANGE of a direction to a value, whether or not a new
    state was built, reading that direction in the result gives that
    value. *)
Theorem reducer_stores_value
    (state : StateRef) (d : Direction.t) (v : bool) (next : nat) :
  canScroll (JS.val (fst (reducer state (CHANGE d v) next)))
    !! Direction.key d
  = Some v.
Proof. rewrite reducer_lookup. by destruct (decide (d = d)). Qed.

(** X2. Actions whose type is not exactly ['CHANGE'] are ignored: a list
    of them gives back the state it started from, the same object, and
    nothing is allocated, whatever their directions and values. *)
Theorem unrecognised_actions_ignored
    (state : StateRef) (actions : list Dispatch) (next : nat) :
  Forall (fun a => action_type a <> "CHANGE") actions ->
  reduce_all state actions next = (state, next).
Proof.
  intros Hall. induction Hall as [| a rest Ha _ IH]; simpl; [reflexivity |].
  rewrite (reducer_other_type _ _ _ Ha). exact IH.
Qed.

Lemma unrecognised_actions_ignored_witness :
  let state := fst (getInitialState 0) in
  let actions :=
    [{| action_type := "change"; action_direction := Direction.up;
        action_canScroll := true |};
     {| action_type := "RESET"; action_direction := Direction.down;
        action_canScroll := true |}] in
  reduce_all state actions 1 = (state, 1).
Proof.
  intros state actions.
  apply (unrecognised_actions_ignored state actions 1).
  repeat constructor; discriminate.
Defined.

(** X3. For a state that was allocated before, a CHANGE gives a reference
    to the same object exactly when the stored value is the value of the
    action; otherwise it gives another state object, whose canScroll is
    the old one with the direction set to the value. *)
Theorem reducer_new_reference_iff_value_differs
    (state : StateRef) (d : Direction.t) (v : bool) (next : nat) :
  JS.addr state < next ->
  let same :=
    bool_decide (canScroll (JS.val state) !! Direction.key d = Some v) in
  let result := fst (reducer state (CHANGE d v) next) in
  JS.Object_is result state = same
  /\ (if same then result = state
      else canScroll (JS.val result)
           = <[Direction.key d := v]> (canScroll (JS.val state))).
Proof.
  intros Hlt same result. subst same result.
  destruct (decide (canScroll (JS.val state) !! Direction.key d = Some v))
    as [Hcur | Hcur].
  - rewrite (bool_decide_eq_true_2 _ Hcur).
    rewrite (reducer_unchanged _ _ _ _ Hcur). cbn [fst].
    by rewrite Object_is_refl.
  - rewrite (bool_decide_eq_false_2 _ Hcur).
    rewrite (reducer_changed _ _ _ _ Hcur). cbn [fst JS.val canScroll].
    split; [by apply Object_is_fresh | reflexivity].
Qed.

Lemma reducer_new_reference_iff_value_differs_witness :
  let state := fst (getInitialState 0) in
  let same :=
    bool_decide (canScroll (JS.val state) !! Direction.key Direction.right
                 = Some true) in
  let result := fst (reducer state (CHANGE Direction.right true) 1) in
  JS.Object_is result state = same
  /\ (if same then result = state
      else canScroll (JS.val result)
           = <[Direction.key Direction.right := true]>
               (canScroll (JS.val state))).
Proof.
  apply (reducer_new_reference_iff_value_differs
           (fst (getInitialState 0)) Direction.right true 1).
  simpl. lia.
Defined.

Lemma reduce_all_changes_lookup changes : forall state next d,
  canScroll (JS.val (fst (reduce_all state (uncurry CHANGE <$> changes) next)))
    !! Direction.key d
  = match last_write d changes with
    | Some v => Some v
    | None => canScroll (JS.val state) !! Direction.key d
    end.
Proof.
  induction changes as [| [d' v] rest IH]; intros state next d;
    [reflexivity |].
  rewrite fmap_cons. simpl.
  pose proof (reducer_lookup state d' v next d) as Hstep.
  destruct (reducer state (CHANGE d' v) next) as [state' next'].
  simpl in Hstep. rewrite IH, Hstep.
  destruct (last_write d rest); [reflexivity |].
  destruct (decide (d' = d)) as [-> | Hne].
  - by destruct (decide (d = d)).
  - destruct (decide (d = d')); [congruence | reflexivity].
Qed.

(** X4. Last write wins. After any list of CHANGE actions, each direction
    holds the value of the last action of the list for that direction, and
    what the starting state held if the list has none. *)
Theorem reduce_all_last_write_wins
    (state : StateRef) (changes : list (Direction.t * bool)) (next : nat)
    (d : Direction.t) :
  canScroll (JS.val (fst (reduce_all state (uncurry CHANGE <$> changes) next)))
    !! Direction.key d
  = match last_write d changes with
    | Some v => Some v
    | None => canScroll (JS.val state) !! Direction.key d
    end.
Proof. apply reduce_all_changes_lookup. Qed.

(** X5. Changes of two different directions commute: in either order the
    resulting canScroll object has the same contents. *)
Theorem changes_of_two_directions_commute
    (state : StateRef) (d1 d2 : Direction.t) (v1 v2 : bool) (next : nat) :
  d1 <> d2 ->
  canScroll
    (JS.val (fst (reduce_all state [CHANGE d1 v1; CHANGE d2 v2] next)))
  = canScroll
      (JS.val (fst (reduce_all state [CHANGE d2 v2; CHANGE d1 v1] next))).
Proof.
  intros Hne. simpl.
  pose proof (reducer_contents state d1 v1 next) as H1.
  pose proof (reducer_contents state d2 v2 next) as H2.
  destruct (reducer state (CHANGE d1 v1) next) as [s1 n1].
  destruct (reducer state (CHANGE d2 v2) next) as [s2 n2].
  pose proof (reducer_contents s1 d2 v2 n1) as H12.
  pose proof (reducer_contents s2 d1 v1 n2) as H21.
  destruct (reducer s1 (CHANGE d2 v2) n1) as [s12 n12].
  destruct (reducer s2 (CHANGE d1 v1) n2) as [s21 n21].
  simpl in *. rewrite H12, H21, H1, H2.
  apply insert_insert_ne. intros Hk. apply key_inj in Hk. congruence.
Qed.

Lemma changes_of_two_directions_commute_witness :
  canScroll
    (JS.val (fst (reduce_all (fst (getInitialState 0))
                    [CHANGE Direction.up true; CHANGE Direction.left true]
                    1)))
  = canScroll
      (JS.val (fst (reduce_all (fst (getInitialState 0))
                      [CHANGE Direction.left true; CHANGE Direction.up true]
                      1))).
Proof.
  apply (changes_of_two_directions_commute (fst (getInitialState 0))
           Direction.up Direction.left true true 1).
  discriminate.
Defined.

(** X6. Changing a direction and changing it back gives a canScroll object
    with the contents of the first one, but in another state object: the
    reducer compares the one value only, never whole states, so the result
    is not the starting reference. *)
Theorem change_and_back_is_a_new_object
    (state : StateRef) (d : Direction.t) (v : bool) (next : nat) :
  JS.addr state < next ->
  canScroll (JS.val state) !! Direction.key d = Some v ->
  let result :=
    fst (reduce_all state [CHANGE d (negb v); CHANGE d v] next) in
  canScroll (JS.val result) = canScroll (JS.val state)
  /\ JS.Object_is result state = false.
Proof.
  intros Hlt Hcur result. subst result. simpl.
  assert (Hne : canScroll (JS.val state) !! Direction.key d
                <> Some (negb v)).
  { rewrite Hcur. destruct v; discriminate. }
  rewrite (reducer_changed _ _ _ _ Hne).
  rewrite reducer_changed.
  - cbn [fst JS.val canScroll]. split.
    + rewrite insert_insert_eq. by apply insert_id.
    + apply Object_is_fresh. lia.
  - cbn [JS.val canScroll]. rewrite lookup_insert_eq.
    destruct v; discriminate.
Qed.

Lemma change_and_back_is_a_new_object_witness :
  let state := fst (getInitialState 0) in
  let result :=
    fst (reduce_all state
           [CHANGE Direction.down (negb false); CHANGE Direction.down false]
           1) in
  canScroll (JS.val result) = canScroll (JS.val state)
  /\ JS.Object_is result state = false.
Proof.
  apply (change_and_back_is_a_new_object
           (fst (getInitialState 0)) Direction.down false 1).
  - simpl. lia.
  - reflexivity.
Defined.

(* ===================================================================== *)
(** * More on the provider                                                 *)
(* ===================================================================== *)

Lemma commit_keeps props inst :
  Overflow.state (Overflow.commit props inst) = Overflow.state inst
  /\ Overflow.refs (Overflow.commit props inst) = Overflow.refs inst
  /\ Overflow.next (Overflow.commit props inst) = Overflow.next inst.
Proof.
  unfold Overflow.commit.
  destruct (match Overflow.effect_deps inst with
            | Some old => _
            | None => true
            end); by repeat split.
Qed.

Lemma flush_state props batch inst :
  Overflow.state (Overflow.flush props batch inst)
  = fst (reduce_all (Overflow.state inst) batch (Overflow.next inst))
  /\ Overflow.next (Overflow.flush props batch inst)
     = snd (reduce_all (Overflow.state inst) batch (Overflow.next inst))
  /\ Overflow.refs (Overflow.flush props batch inst) = Overflow.refs inst.
Proof.
  unfold Overflow.flush.
  destruct (reduce_all (Overflow.state inst) batch (Overflow.next inst))
    as [state' next'].
  match goal with |- context [Overflow.commit props ?i] =>
    destruct (commit_keeps props i) as [-> [-> ->]] end.
  by repeat split.
Qed.

Lemma run_state props history : forall inst,
  Overflow.state (Overflow.run props inst history)
  = fst (reduce_all (Overflow.state inst) (concat history)
           (Overflow.next inst))
  /\ Overflow.next (Overflow.run props inst history)
     = snd (reduce_all (Overflow.state inst) (concat history)
              (Overflow.next inst)).
Proof.
  induction history as [| batch rest IH]; intros inst; [by split |].
  change (Overflow.run props inst (batch :: rest))
    with (Overflow.run props (Overflow.flush props batch inst) rest).
  destruct (IH (Overflow.flush props batch inst)) as [-> ->].
  destruct (flush_state props batch inst) as [-> [-> _]].
  simpl concat. rewrite reduce_all_app.
  destruct (reduce_all (Overflow.state inst) batch (Overflow.next inst)).
  by split.
Qed.

(** X7. The state of the provider does not depend on how React groups the
    dispatched actions into renders: after any renders it is the reducer
    folded over all the actions in dispatch order, from the initial state,
    as it is when every action is rendered on its own. *)
Theorem provider_state_is_fold_of_actions
    (props : Overflow.Props) (next0 : nat) (history : list (list Dispatch)) :
  let mounted := Overflow.mount props next0 in
  let actions := concat history in
  Overflow.state (Overflow.run props mounted history)
  = fst (reduce_all (fst (getInitialState next0)) actions (3 + next0))
  /\ Overflow.state (Overflow.run props mounted history)
     = Overflow.state
         (Overflow.run props mounted ((fun a => [a]) <$> actions)).
Proof.
  intros mounted actions.
  destruct (run_state props history mounted) as [-> _].
  destruct (run_state props ((fun a => [a]) <$> actions) mounted) as [-> _].
  assert (Hflat : concat ((fun a : Dispatch => [a]) <$> actions) = actions).
  { induction actions as [| a rest IH]; [reflexivity |].
    rewrite fmap_cons. simpl. by rewrite IH. }
  rewrite Hflat.
  assert (Hst : Overflow.state mounted = fst (getInitialState next0)).
  { apply (commit_keeps props). }
  assert (Hnext : Overflow.next mounted = 3 + next0).
  { apply (commit_keeps props). }
  by rewrite Hst, Hnext.
Qed.

(** A render leaves a settled instance as it is, or gives it a new state
    object, which lies at or above the old counter and so above every
    object allocated before. *)
Lemma flush_same_or_fresh props batch inst :
  Overflow.settled props inst ->
  Overflow.flush props batch inst = inst
  \/ (Overflow.next inst
      <= JS.addr (Overflow.state (Overflow.flush props batch inst))
      /\ JS.addr (Overflow.state (Overflow.flush props batch inst))
         < Overflow.next (Overflow.flush props batch inst)
      /\ Overflow.calls (Overflow.flush props batch inst)
         = Overflow.calls inst
             ++ Overflow.effect_body props (Overflow.flush props batch inst)
      /\ Overflow.refs (Overflow.flush props batch inst)
         = Overflow.refs inst).
Proof.
  intros Hs.
  destruct (flush_settled_cases props batch inst Hs)
    as [[_ Hsame] | [Hnew [Hlt Hflush]]]; [by left |].
  destruct (reduce_all_cases batch (Overflow.state inst) (Overflow.next inst))
    as [Heq | [Hle _]].
  - rewrite Heq in Hnew. simpl in Hnew. by rewrite Object_is_refl in Hnew.
  - right. rewrite Hflush. simpl. repeat split; [exact Hle | exact Hlt].
Qed.

Lemma flush_calls_consistent props cb batch inst :
  Overflow.onStateChange props = Some cb ->
  Overflow.settled props inst ->
  calls_consistent cb inst ->
  calls_consistent cb (Overflow.flush props batch inst).
Proof.
  intros Hcb Hs Hc.
  destruct (flush_same_or_fresh props batch inst Hs)
    as [-> | [Hle [Hlt [Hcalls Hrefs]]]]; [exact Hc |].
  destruct Hc as [_ [Hall Hnodup]].
  unfold calls_consistent. rewrite Hcalls, Hrefs.
  unfold Overflow.effect_body. rewrite Hcb, Hrefs.
  split; [apply last_snoc |]. split.
  - apply Forall_app. split.
    + eapply Forall_impl; [exact Hall |]. simpl.
      intros c [H1 [H2 H3]]. repeat split; [done | done | lia].
    + apply Forall_singleton. by repeat split.
  - rewrite fmap_app. apply NoDup_app. split; [exact Hnodup |]. split.
    + intros a Hin Hin'. simpl in Hin'. apply list_elem_of_singleton in Hin'.
      apply list_elem_of_fmap in Hin as [c [-> Hc]].
      rewrite Forall_forall in Hall. destruct (Hall c Hc) as [_ [_ Hold]].
      lia.
    + simpl. apply NoDup_singleton.
Qed.

Lemma mount_calls_consistent props cb next0 :
  Overflow.onStateChange props = Some cb ->
  calls_consistent cb (Overflow.mount props next0).
Proof.
  intros Hcb. unfold calls_consistent, Overflow.mount. simpl.
  unfold Overflow.commit, Overflow.effect_body. simpl. rewrite Hcb. simpl.
  split; [reflexivity |]. split.
  - apply Forall_singleton. repeat split. simpl. lia.
  - apply NoDup_singleton.
Qed.

Lemma run_calls_consistent props cb history : forall inst,
  Overflow.onStateChange props = Some cb ->
  Overflow.settled props inst ->
  calls_consistent cb inst ->
  calls_consistent cb (Overflow.run props inst history).
Proof.
  induction history as [| batch rest IH]; intros inst Hcb Hs Hc;
    [exact Hc |].
  apply (IH (Overflow.flush props batch inst) Hcb).
  - by apply flush_settled.
  - by apply flush_calls_consistent.
Qed.

Lemma run_calls_length props history : forall inst,
  Overflow.settled props inst ->
  length (Overflow.calls (Overflow.run props inst history))
  <= length (Overflow.calls inst) + length history.
Proof.
  induction history as [| batch rest IH]; intros inst Hs; simpl; [lia |].
  etransitivity; [apply IH; by apply flush_settled |].
  destruct (flush_settled_cases props batch inst Hs)
    as [[_ ->] | [_ [_ ->]]]; simpl; [lia |].
  rewrite length_app. unfold Overflow.effect_body.
  destruct (Overflow.onStateChange props); simpl; lia.
Qed.

Lemma run_no_callback props history : forall inst,
  Overflow.onStateChange props = None ->
  Overflow.settled props inst ->
  Overflow.calls (Overflow.run props inst history) = Overflow.calls inst.
Proof.
  induction history as [| batch rest IH]; intros inst Hcb Hs; [reflexivity |].
  change (Overflow.run props inst (batch :: rest))
    with (Overflow.run props (Overflow.flush props batch inst) rest).
  rewrite IH; [| exact Hcb | by apply flush_settled].
  destruct (flush_settled_cases props batch inst Hs)
    as [[_ ->] | [_ [_ ->]]]; [reflexivity |].
  simpl. unfold Overflow.effect_body. rewrite Hcb. apply app_nil_r.
Qed.

(** X8. What the callback has been told, after any renders.  Without an
    [onStateChange] prop nothing was ever called.  With one: the last call
    was made with the state the provider has now; every call was made with
    that callback and the provider's one [refs] object; no two calls were
    made with the same state object; and there were at most one call for
    the mount and one for each render. *)
Theorem onStateChange_calls_follow_the_state
    (props : Overflow.Props) (next0 : nat) (history : list (list Dispatch)) :
  let mounted := Overflow.mount props next0 in
  let inst := Overflow.run props mounted history in
  match Overflow.onStateChange props with
  | None => Overflow.calls inst = []
  | Some cb =>
      last (Overflow.calls inst)
      = Some {| Overflow.call_callback := cb;
                Overflow.call_state := Overflow.state inst;
                Overflow.call_refs := Overflow.refs mounted |}
      /\ Forall (fun c => Overflow.call_callback c = cb
                          /\ Overflow.call_refs c = Overflow.refs mounted)
           (Overflow.calls inst)
      /\ NoDup ((fun c => JS.addr (Overflow.call_state c))
                  <$> Overflow.calls inst)
      /\ length (Overflow.calls inst) <= 1 + length history
  end.
Proof.
  intros mounted inst.
  pose proof (mount_settled props next0) as Hs.
  destruct (Overflow.onStateChange props) as [cb |] eqn:Hcb.
  - pose proof (run_calls_consistent props cb history mounted Hcb Hs
                  (mount_calls_consistent props cb next0 Hcb))
      as [Hlast [Hall Hnodup]].
    fold inst in Hlast, Hall, Hnodup.
    assert (Hrefs : Overflow.refs inst = Overflow.refs mounted)
      by (by apply run_refs).
    rewrite Hrefs in Hlast, Hall.
    split; [exact Hlast |]. split; [| split; [exact Hnodup |]].
    + eapply Forall_impl; [exact Hall |]. simpl. tauto.
    + pose proof (run_calls_length props history mounted Hs) as Hlen.
      fold inst in Hlen. etransitivity; [exact Hlen |].
      unfold mounted, Overflow.mount. simpl.
      unfold Overflow.commit, Overflow.effect_body. simpl. rewrite Hcb.
      simpl. lia.
  - subst inst. rewrite (run_no_callback props history mounted Hcb Hs).
    unfold mounted, Overflow.mount. simpl.
    unfold Overflow.commit, Overflow.effect_body. simpl. by rewrite Hcb.
Qed.

(** X9. The effect also depends on the callback.  When the parent renders
    the provider again with an [onStateChange] of another identity, the new
    callback is called once with the current state although the state did
    not change; rendered again with the same props, nothing is called. *)
Theorem rerender_with_new_callback_calls_it
    (cb cb' : Overflow.Callback) (tol tol' : option Tolerance)
    (next0 : nat) (history : list (list Dispatch)) :
  cb <> cb' ->
  let props :=
    {| Overflow.onStateChange := Some cb; Overflow.tolerance := tol |} in
  let props' :=
    {| Overflow.onStateChange := Some cb'; Overflow.tolerance := tol' |} in
  let inst := Overflow.run props (Overflow.mount props next0) history in
  Overflow.rerender props inst = inst
  /\ Overflow.state (Overflow.rerender props' inst) = Overflow.state inst
  /\ Overflow.calls (Overflow.rerender props' inst)
     = Overflow.calls inst
         ++ [{| Overflow.call_callback := cb';
                Overflow.call_state := Overflow.state inst;
                Overflow.call_refs := Overflow.refs inst |}].
Proof.
  intros Hne props props' inst.
  assert (Hs : Overflow.settled props inst).
  { apply run_settled, mount_settled. }
  split; [by apply commit_settled |].
  split; [apply (commit_keeps props') |].
  destruct Hs as [Hdeps _].
  unfold Overflow.rerender, Overflow.commit. rewrite Hdeps.
  cbn [Overflow.same_deps Overflow.onStateChange props props'
       Overflow.same_callback].
  apply Nat.eqb_neq in Hne. rewrite Hne. reflexivity.
Qed.

Lemma rerender_with_new_callback_calls_it_witness :
  let props :=
    {| Overflow.onStateChange := Some 1; Overflow.tolerance := None |} in
  let props' :=
    {| Overflow.onStateChange := Some 2; Overflow.tolerance := None |} in
  let inst :=
    Overflow.run props (Overflow.mount props 0)
      [[CHANGE Direction.down true]] in
  Overflow.rerender props inst = inst
  /\ Overflow.state (Overflow.rerender props' inst) = Overflow.state inst
  /\ Overflow.calls (Overflow.rerender props' inst)
     = Overflow.calls inst
         ++ [{| Overflow.call_callback := 2;
                Overflow.call_state := Overflow.state inst;
                Overflow.call_refs := Overflow.refs inst |}].
Proof.
  apply (rerender_with_new_callback_calls_it 1 2 None None 0
           [[CHANGE Direction.down true]]).
  discriminate.
Defined.

Lemma same_number_refl x : same_number x x = true.
Proof.
  destruct x as [sg | sg | | sg m e]; simpl;
    rewrite ?eqb_reflx, ?Z.eqb_refl; reflexivity.
Qed.

Lemma same_tolerance_refl t : same_tolerance t t = true.
Proof.
  destruct t; simpl; [apply same_number_refl | by apply bool_decide_eq_true_2].
Qed.

Example same_number_two_spellings :
  same_number (S754_finite false 10 0) (S754_finite false 5 1) = true
  /\ same_number (S754_finite false 10 0) (S754_finite false 5 2) = false
  /\ same_number (S754_zero false) (S754_zero true) = false
  /\ same_number S754_nan S754_nan = true.
Proof. repeat split. Qed.

(** X10. The object given to the context provider keeps its identity as
    long as the state object and the tolerance do: after a render in which
    the reducer gave back the same state, [useMemo] returns the object of
    the render before and makes no new one, so consumers are not rendered
    again; after a render with a new state object, or with a tolerance
    that is another value by [Object.is], it is a new object that holds
    the new state or tolerance. *)
Theorem context_value_identity
    (props : Overflow.Props) (tol' : option Tolerance) (next0 : nat)
    (history : list (list Dispatch)) (batch : list Dispatch) (n0 : nat) :
  let inst := Overflow.run props (Overflow.mount props next0) history in
  let inst' := Overflow.flush props batch inst in
  let props' :=
    {| Overflow.onStateChange := Overflow.onStateChange props;
       Overflow.tolerance := tol' |} in
  let cell := fst (ContextMemo.render props inst None n0) in
  let n1 := snd (ContextMemo.render props inst None n0) in
  let fresh p i :=
    ({| ContextMemo.cell_deps :=
          (Overflow.refs i, Overflow.state i,
           Overflow.tolerance_or_default p);
        ContextMemo.cell_value := JS.mkObj n1 (Overflow.context p i) |},
     S n1) in
  ContextMemo.cell_value cell = JS.mkObj n0 (Overflow.context props inst)
  /\ n1 = S n0
  /\ ContextMemo.render props inst' (Some cell) n1
     = (if JS.Object_is (Overflow.state inst') (Overflow.state inst)
        then (cell, n1)
        else fresh props inst')
  /\ ContextMemo.render props' inst (Some cell) n1
     = (if same_tolerance (Overflow.tolerance_or_default props)
             (Overflow.tolerance_or_default props')
        then (cell, n1)
        else fresh props' inst).
Proof.
  intros inst inst' props' cell n1 fresh.
  split; [reflexivity |]. split; [reflexivity |].
  assert (Hdeps : ContextMemo.cell_deps cell
                  = (Overflow.refs inst, Overflow.state inst,
                     Overflow.tolerance_or_default props)) by reflexivity.
  unfold ContextMemo.render, ContextMemo.useMemo, fresh.
  rewrite Hdeps. cbn [ContextMemo.same_deps].
  split.
  - rewrite same_tolerance_refl.
    destruct (flush_state props batch inst) as [_ [_ Hrefs]].
    fold inst' in Hrefs.
    rewrite Hrefs, Object_is_refl, (Object_is_sym (Overflow.state inst)).
    by destruct (JS.Object_is (Overflow.state inst') (Overflow.state inst)).
  - rewrite !Object_is_refl. cbn [andb].
    by destruct (same_tolerance _ _).
Qed.

(* ===================================================================== *)
(** * The inline styles                                                    *)
(* ===================================================================== *)

Lemma spread_lookup (a b : gmap string Style.Value) k :
  Style.spread a b !! k
  = match b !! k with
    | Some v => Some v
    | None => a !! k
    end.
Proof.
  unfold Style.spread. destruct (b !! k) as [v |] eqn:Hb.
  - by apply lookup_union_Some_l.
  - by apply lookup_union_r.
Qed.

Lemma spreadable_lookup (o : option (gmap string Style.Value)) k :
  Style.spreadable o !! k = o ≫= (fun props => props !! k).
Proof. destruct o; [reflexivity | apply lookup_empty]. Qed.

(** X11. The wrapper of the provider is displayed as ['none'] when the
    [hidden] prop is true or the [style] prop has [display: 'none'], and
    as ['flex'] in every other case: any other [display] the caller puts
    in [style] is not used. *)
Theorem Overflow_style_display
    (hidden : option bool) (styleProp : option (gmap string Style.Value)) :
  Style.Overflow_style hidden styleProp !! "display"
  = Some (Style.str
            (if JS.truthy_bool hidden
                || bool_decide (styleProp ≫= (fun props => props !! "display")
                                = Some (Style.str "none"))
             then "none" else "flex")).
Proof.
  unfold Style.Overflow_style. rewrite lookup_insert_eq. f_equal.
  destruct styleProp as [props |]; simpl.
  - by destruct (JS.truthy_bool hidden || bool_decide _).
  - rewrite orb_false_r. by destruct (JS.truthy_bool hidden).
Qed.

(** X12. For every property other than [display], the wrapper of the
    provider has the value of the caller's [style] when there is one, and
    otherwise the value of [containerStyle] (['column'] for
    [flexDirection], ['relative'] for [position], nothing else); [hidden]
    plays no part. *)
Theorem Overflow_style_caller_wins
    (hidden : option bool) (styleProp : option (gmap string Style.Value))
    (k : string) :
  k <> "display" ->
  Style.Overflow_style hidden styleProp !! k
  = match styleProp ≫= (fun props => props !! k) with
    | Some v => Some v
    | None =>
        if decide (k = "flexDirection") then Some (Style.str "column")
        else if decide (k = "position") then Some (Style.str "relative")
        else None
    end.
Proof.
  intros Hk. unfold Style.Overflow_style.
  rewrite lookup_insert_ne by congruence.
  rewrite spread_lookup, spreadable_lookup.
  destruct (styleProp ≫= _); [reflexivity |].
  unfold Style.containerStyle.
  destruct (decide (k = "flexDirection")) as [-> | Hf]; [reflexivity |].
  destruct (decide (k = "position")) as [-> | Hp]; [reflexivity |].
  rewrite !lookup_insert_ne by congruence. apply lookup_empty.
Qed.

Lemma Overflow_style_caller_wins_witness :
  Style.Overflow_style (Some true)
    (Some (<["position" := Style.str "absolute"]> ∅)) !! "position"
  = match Some (<["position" := Style.str "absolute"]> ∅)
            ≫= (fun props : gmap string Style.Value => props !! "position")
    with
    | Some v => Some v
    | None =>
        if decide ("position" = "flexDirection")
        then Some (Style.str "column")
        else if decide ("position" = "position")
             then Some (Style.str "relative")
             else None
    end.
Proof.
  apply (Overflow_style_caller_wins (Some true)
           (Some (<["position" := Style.str "absolute"]> ∅)) "position").
  discriminate.
Defined.

(** X13. In the content wrapper it is the other way round: the four
    properties of [contentStyle] ([display], [position], [minWidth],
    [boxSizing]) keep their values whatever the caller's [style] says, and
    only the caller's other properties get through. *)
Theorem OverflowContent_style_fixed
    (styleProp : option (gmap string Style.Value)) (k : string) :
  Style.OverflowContent_style styleProp !! "display"
  = Some (Style.str "inline-block")
  /\ Style.OverflowContent_style styleProp !! "position"
     = Some (Style.str "relative")
  /\ Style.OverflowContent_style styleProp !! "minWidth"
     = Some (Style.str "100%")
  /\ Style.OverflowContent_style styleProp !! "boxSizing"
     = Some (Style.str "border-box")
  /\ Style.OverflowContent_style styleProp !! k
     = match Style.contentStyle !! k with
       | Some v => Some v
       | None => styleProp ≫= (fun props => props !! k)
       end.
Proof.
  unfold Style.OverflowContent_style.
  repeat split; rewrite spread_lookup; try reflexivity.
  by rewrite spreadable_lookup.
Qed.

(* ===================================================================== *)
(** * More on the content wrapper                                          *)
(* ===================================================================== *)

(** There is always a node to watch: the tolerance element when the
    tolerance is truthy, the content element otherwise. *)
Lemma watchNode_cases tolerance :
  OverflowContent.watchNode tolerance
  = Some match tolerance with
         | Some t =>
             if truthy_tolerance tolerance
             then OverflowContent.tolerance_node (Spec.inset_style t)
             else OverflowContent.content_node
         | None => OverflowContent.content_node
         end.
Proof.
  unfold OverflowContent.watchNode, OverflowContent.watchRef,
    OverflowContent.current, OverflowContent.toleranceElement.
  destruct tolerance as [t |]; [| reflexivity].
  by destruct (truthy_tolerance (Some t)).
Qed.

(** X14. The content wrapper needs a provider: with none around it,
    rendering it throws a TypeError when [viewport] is read from the
    missing [refs], before any observer is created; under a provider it
    renders, and its observers are set up on the provider's context. *)
Theorem OverflowContent_needs_provider
    (props : Overflow.Props) (next0 : nat) :
  (exists msg, ContentEffects.mount None = JS.TypeError msg)
  /\ ContentEffects.viewportRef
       (Some (Overflow.context props (Overflow.mount props next0)))
     = JS.Ok (S next0)
  /\ ContentEffects.mount
       (Some (Overflow.context props (Overflow.mount props next0)))
     = JS.Ok (Tree.watchers (Tree.mount props next0)).
Proof.
  split; [eexists; reflexivity |]. split; reflexivity.
Qed.

Lemma mount_watchers_live props next0 :
  OverflowContent.ignore (Tree.watchers (Tree.mount props next0)) = false
  /\ OverflowContent.dispatch (Tree.watchers (Tree.mount props next0))
     = Some provider_dispatch.
Proof.
  unfold Tree.mount. cbn [Tree.watchers]. rewrite watchNode_cases.
  by split.
Qed.

(** X15. Once a provider and its content wrapper are mounted, each of the
    four observers is the one of its direction, with the margin of that
    direction, connected, and observes exactly one node: the tolerance
    element when the [tolerance] prop is truthy, and the content element
    when it is falsy or not given (the default is the number 0).  Reports
    are not ignored and go to the provider's [dispatch]. *)
Theorem mounted_observers_watch_one_node
    (props : Overflow.Props) (next0 : nat) (d : Direction.t) :
  let w := Tree.watchers (Tree.mount props next0) in
  let o := OverflowContent.observer w d in
  OverflowContent.io_targets o
  = [if truthy_tolerance (Overflow.tolerance props)
     then OverflowContent.tolerance_node
            (Spec.inset_style (Overflow.tolerance_or_default props))
     else OverflowContent.content_node]
  /\ OverflowContent.io_direction o = d
  /\ OverflowContent.io_rootMargin o = OverflowContent.rootMargin d
  /\ OverflowContent.io_disconnected o = false
  /\ OverflowContent.ignore w = false
  /\ OverflowContent.dispatch w = Some provider_dispatch.
Proof.
  intros w o. subst o w. unfold Tree.mount. cbn [Tree.watchers].
  cbn [useOverflow Overflow.context ctx_tolerance].
  rewrite watchNode_cases.
  assert (Htruthy : truthy_tolerance (Some (Overflow.tolerance_or_default props))
                    = truthy_tolerance (Overflow.tolerance props)).
  { unfold Overflow.tolerance_or_default.
    by destruct (Overflow.tolerance props). }
  rewrite Htruthy.
  destruct d; by repeat split.
Qed.

Lemma dispatch_state props action inst :
  Overflow.state (Overflow.dispatch props action inst)
  = fst (reducer (Overflow.state inst) action (Overflow.next inst)).
Proof.
  unfold Overflow.dispatch.
  destruct (flush_state props [action] inst) as [-> _].
  by rewrite reduce_all_single.
Qed.

(** A report that is not ignored is dispatched as a CHANGE. *)
Lemma step_report_live props tree d entry :
  OverflowContent.ignore (Tree.watchers tree) = false ->
  OverflowContent.dispatch (Tree.watchers tree) = Some provider_dispatch ->
  Tree.step props tree (Tree.Report d entry)
  = {| Tree.provider :=
         Overflow.dispatch props
           (CHANGE d (OverflowContent.entry_canScroll entry))
           (Tree.provider tree);
       Tree.watchers := Tree.watchers tree |}.
Proof.
  intros Hig Hd. simpl.
  unfold OverflowContent.report, OverflowContent.observer_callback.
  by rewrite Hig, Hd.
Qed.

Lemma run_reports_lookup props reports : forall tree d,
  OverflowContent.ignore (Tree.watchers tree) = false ->
  OverflowContent.dispatch (Tree.watchers tree) = Some provider_dispatch ->
  let tree' := Tree.run props tree (uncurry Tree.Report <$> reports) in
  Tree.watchers tree' = Tree.watchers tree
  /\ canScroll (JS.val (Overflow.state (Tree.provider tree')))
       !! Direction.key d
     = match last_write d
               (prod_map id OverflowContent.entry_canScroll <$> reports)
       with
       | Some v => Some v
       | None =>
           canScroll (JS.val (Overflow.state (Tree.provider tree)))
             !! Direction.key d
       end.
Proof.
  induction reports as [| [d' entry] rest IH]; intros tree d Hig Hd;
    [by split |].
  rewrite !fmap_cons.
  change (Tree.run props tree (uncurry Tree.Report (d', entry) :: ?evs))
    with (Tree.run props (Tree.step props tree (Tree.Report d' entry)) evs).
  rewrite (step_report_live _ _ _ _ Hig Hd).
  match goal with |- context [Tree.run props ?t _] =>
    destruct (IH t d Hig Hd) as [Hw Hl] end.
  cbv zeta. rewrite Hw, Hl. split; [reflexivity |].
  cbn [Tree.provider prod_map id fst snd last_write].
  destruct (last_write d _); [reflexivity |].
  rewrite dispatch_state, reducer_lookup.
  destruct (decide (d' = d)) as [-> | Hne].
  - by destruct (decide (d = d)).
  - destruct (decide (d = d')); [congruence | reflexivity].
Qed.

Lemma mount_lookup props next0 d :
  canScroll (JS.val (Overflow.state (Tree.provider (Tree.mount props next0))))
    !! Direction.key d
  = Some false.
Proof.
  unfold Tree.mount. cbn [Tree.provider].
  destruct (commit_keeps props
              {| Overflow.state := fst (getInitialState next0);
                 Overflow.refs :=
                   JS.mkObj (S (S next0)) {| viewport := S next0 |};
                 Overflow.effect_deps := None;
                 Overflow.calls := [];
                 Overflow.next := S (S (S next0)) |}) as [Hst _].
  change (Overflow.state (Overflow.mount props next0)
          = fst (getInitialState next0)) in Hst.
  rewrite Hst. by destruct d.
Qed.

(** X16. As long as the content wrapper is mounted, the state of the
    provider shows, for each direction, what the last report of that
    direction's observer said ([hasSize && intersectionRatio !== 0 &&
    isIntersecting] of its entry), and false for a direction that has not
    reported; the reports of one direction never change another, and the
    observers stay as they were. *)
Theorem state_shows_last_report_of_each_direction
    (props : Overflow.Props) (next0 : nat)
    (reports :
       list (Direction.t * OverflowContent.IntersectionObserverEntry))
    (d : Direction.t) :
  let mounted := Tree.mount props next0 in
  let tree := Tree.run props mounted (uncurry Tree.Report <$> reports) in
  canScroll (JS.val (Overflow.state (Tree.provider tree)))
    !! Direction.key d
  = Some (default false
            (last_write d
               (prod_map id OverflowContent.entry_canScroll <$> reports)))
  /\ Tree.watchers tree = Tree.watchers mounted.
Proof.
  intros mounted tree.
  destruct (mount_watchers_live props next0) as [Hig Hd].
  destruct (run_reports_lookup props reports mounted d Hig Hd) as [Hw Hl].
  fold tree in Hw, Hl. split; [| exact Hw].
  rewrite Hl. destruct (last_write d _); [reflexivity |].
  apply mount_lookup.
Qed.









(** A tolerance of 10, then 20, then none: one [div] while it is truthy,
    then the content [div] alone. *)
Example tolerance_10_20_none :
  let t10 := Some (tol_number (JS.of_pos 10)) in
  let t20 := Some (tol_number (JS.of_pos 20)) in
  let r1 := ContentEffects.first_render t10 in
  let r2 := ContentEffects.rerender t20 r1 in
  let r3 := ContentEffects.rerender None r2 in
  ContentEffects.targets_up (ContentEffects.observed r1)
  = [ContentEffects.tolerance_div 0]
  /\ ContentEffects.targets_up (ContentEffects.observed r2)
     = [ContentEffects.tolerance_div 0]
  /\ ContentEffects.targets_up (ContentEffects.observed r3)
     = [ContentEffects.content_div].
Proof. repeat split. Qed.

(* ===================================================================== *)
(** * More on the indicator                                                *)
(* ===================================================================== *)

Lemma isActive_any_total (c : CanScroll) (u l r d : bool) :
  c !! "up" = Some u -> c !! "left" = Some l ->
  c !! "right" = Some r -> c !! "down" = Some d ->
  isActive c None = Some (u || l || r || d).
Proof.
  intros Hu Hl Hr Hd. unfold isActive. rewrite Hu, Hl, Hr, Hd.
  by destruct u, l, r, d.
Qed.

(** X18. From the observers to the indicator.  With a provider and its
    content wrapper mounted, after any reports: an indicator with element
    children and a direction renders its children exactly when the last
    report of that direction's observer said the viewport can scroll, and
    renders nothing when it said not or never reported; an indicator with
    no direction renders them exactly when that holds of one of the four
    directions. *)
Theorem indicator_follows_last_reports
    (Element : Type) (el : Element) (props : Overflow.Props) (next0 : nat)
    (reports :
       list (Direction.t * OverflowContent.IntersectionObserverEntry))
    (d : Direction.t) :
  let tree :=
    Tree.run props (Tree.mount props next0)
      (uncurry Tree.Report <$> reports) in
  let ctx := Some (Overflow.context props (Tree.provider tree)) in
  let can d :=
    default false
      (last_write d
         (prod_map id OverflowContent.entry_canScroll <$> reports)) in
  OverflowIndicator ctx (child_element el) (Some d)
  = JS.Ok (if can d then Some el else None)
  /\ OverflowIndicator ctx (child_element el) None
     = JS.Ok (if can Direction.up || can Direction.left
                 || can Direction.right || can Direction.down
              then Some el else None).
Proof.
  intros tree ctx can.
  destruct (mount_watchers_live props next0) as [Hig Hd].
  assert (Hl : forall d0,
             canScroll (JS.val (Overflow.state (Tree.provider tree)))
               !! Direction.key d0
             = Some (can d0)).
  { intros d0.
    destruct (run_reports_lookup props reports (Tree.mount props next0) d0
                Hig Hd) as [_ Hl].
    fold tree in Hl. rewrite Hl. unfold can.
    destruct (last_write d0 _); [reflexivity | apply mount_lookup]. }
  unfold OverflowIndicator, ctx. cbn [useOverflow].
  unfold read_canScroll. cbn [Overflow.context ctx_state JS.destructure].
  cbn [mbind Result_bind JS.bind mret Result_ret].
  split.
  - cbn [isActive]. rewrite Hl. by destruct (can d).
  - rewrite (isActive_any_total _ _ _ _ _
               (Hl Direction.up) (Hl Direction.left)
               (Hl Direction.right) (Hl Direction.down)).
    by destruct (_ || _ || _ || _).
Qed.

Lemma provider_state_keys props next0 history :
  dom (canScroll
         (JS.val (Overflow.state
                    (Overflow.run props (Overflow.mount props next0)
                       history))))
  = Spec.four_keys.
Proof.
  destruct (run_state props history (Overflow.mount props next0)) as [-> _].
  apply reduce_all_keeps_keys.
  destruct (commit_keeps props
              {| Overflow.state := fst (getInitialState next0);
                 Overflow.refs :=
                   JS.mkObj (S (S next0)) {| viewport := S next0 |};
                 Overflow.effect_deps := None;
                 Overflow.calls := [];
                 Overflow.next := S (S (S next0)) |}) as [Hst _].
  change (Overflow.state (Overflow.mount props next0)
          = fst (getInitialState next0)) in Hst.
  rewrite Hst. apply getInitialState_keys.
Qed.

(** X19. A render function given as children is called in every render
    under a provider, active or not, and what it returns is rendered.  It
    receives the provider's [refs] object and, with a direction, the
    boolean stored for that direction (never [undefined]); with no
    direction, the whole canScroll object of the state, which has exactly
    the four direction keys. *)
Theorem render_function_always_called
    (Element : Type)
    (f : StateArg -> option RefsRef -> Element)
    (props : Overflow.Props) (next0 : nat) (history : list (list Dispatch))
    (direction : option Direction.t) :
  let mounted := Overflow.mount props next0 in
  let inst := Overflow.run props mounted history in
  let c := canScroll (JS.val (Overflow.state inst)) in
  exists arg,
    OverflowIndicator (Some (Overflow.context props inst))
      (child_function f) direction
    = JS.Ok (Some (f arg (Some (Overflow.refs mounted))))
    /\ match direction with
       | Some d =>
           exists b : bool,
             arg = arg_boolean (Some b) /\ c !! Direction.key d = Some b
       | None => arg = arg_canScroll c /\ dom c = Spec.four_keys
       end.
Proof.
  intros mounted inst c.
  assert (Hrefs : Overflow.refs inst = Overflow.refs mounted).
  { apply run_refs, mount_settled. }
  pose proof (provider_state_keys props next0 history) as Hdom.
  fold mounted inst c in Hdom.
  unfold OverflowIndicator. cbn [useOverflow].
  unfold read_canScroll. cbn [Overflow.context ctx_state ctx_refs
                              JS.destructure].
  cbn [mbind Result_bind JS.bind mret Result_ret].
  rewrite Hrefs. eexists. split; [reflexivity |].
  destruct direction as [d |]; [| by split].
  pose proof (key_in_four d) as Hin. rewrite <- Hdom in Hin.
  apply elem_of_dom in Hin as [b Hb]. exists b.
  split; [| exact Hb]. cbn [isActive]. fold c. by rewrite Hb.
Qed.

(* ===================================================================== *)
(** * What the margins test                                                *)
(* ===================================================================== *)

Lemma region_shifted d root :
  Geometry.region d root = Some (Spec.shifted d root).
Proof.
  unfold Geometry.region.
  destruct d;
    match goal with |- context [RootMargin.parse ?s] =>
      let m := eval vm_compute in (RootMargin.parse s) in
      change (RootMargin.parse s) with m end;
    cbn [mbind option_bind]; f_equal;
    unfold RootMargin.expand, Spec.shifted; cbn [RootMargin.top
      RootMargin.bottom RootMargin.left RootMargin.right];
    rewrite ?resolve_percent_100, ?resolve_percent_minus_100, ?resolve_px_0;
    f_equal; lia.
Qed.

(** X20. For a viewport of positive width and height and a content box
    that covers it, the region the observer of a direction tests has the
    size of the viewport, shares no area with the viewport, and shares
    area with the content exactly when the content reaches beyond the
    viewport's edge on that side.  So content that fits the viewport
    exactly meets none of the four regions. *)
Theorem region_meets_content_iff_beyond_edge
    (d : Direction.t) (root content : RootMargin.Rect) :
  (0 < RootMargin.rect_height root)%Z ->
  (0 < RootMargin.rect_width root)%Z ->
  Geometry.covers content root ->
  exists r,
    Geometry.region d root = Some r
    /\ RootMargin.rect_height r = RootMargin.rect_height root
    /\ RootMargin.rect_width r = RootMargin.rect_width root
    /\ Geometry.overlaps r root = false
    /\ Geometry.overlaps r content
       = (0 <? Geometry.beyond d content root)%Z.
Proof.
  intros Hh Hw [Ht [Hb [Hl Hr]]].
  exists (Spec.shifted d root). split; [apply region_shifted |].
  unfold RootMargin.rect_height, RootMargin.rect_width in *.
  destruct root as [rt rr rb rl], content as [ct cr cb cl].
  cbn [RootMargin.rect_top RootMargin.rect_right RootMargin.rect_bottom
       RootMargin.rect_left] in *.
  unfold Geometry.overlaps, Geometry.beyond, Spec.shifted,
    RootMargin.rect_height, RootMargin.rect_width.
  destruct d;
    cbn [RootMargin.rect_top RootMargin.rect_right RootMargin.rect_bottom
         RootMargin.rect_left];
    (split; [lia |]); (split; [lia |]); split;
    try (apply not_true_iff_false; rewrite andb_true_iff, !Z.ltb_lt; lia);
    apply eq_iff_eq_true; rewrite andb_true_iff, !Z.ltb_lt; lia.
Qed.

Lemma region_meets_content_iff_beyond_edge_witness :
  let root :=
    {| RootMargin.rect_top := 0; RootMargin.rect_right := 300;
       RootMargin.rect_bottom := 200; RootMargin.rect_left := 0 |}%Z in
  let content :=
    {| RootMargin.rect_top := 0; RootMargin.rect_right := 300;
       RootMargin.rect_bottom := 400; RootMargin.rect_left := 0 |}%Z in
  exists r,
    Geometry.region Direction.down root = Some r
    /\ RootMargin.rect_height r = RootMargin.rect_height root
    /\ RootMargin.rect_width r = RootMargin.rect_width root
    /\ Geometry.overlaps r root = false
    /\ Geometry.overlaps r content
       = (0 <? Geometry.beyond Direction.down content root)%Z.
Proof.
  intros root content.
  apply (region_meets_content_iff_beyond_edge Direction.down root content).
  - reflexivity.
  - reflexivity.
  - unfold Geometry.covers. simpl. lia.
Defined.
